(** * Kibana excerpts: alert-list selectors and the CSV export job executor

  Shallow embedding of
  - the alert-list selectors of the endpoint plugin
    (isOnAlertPage, uiQueryParams and the selectors derived from it), and
  - executeJob of the CSV export type of the reporting plugin
    (x-pack/legacy/plugins/reporting/export_types/csv/server/execute_job.ts).

  JavaScript objects used as maps are stdpp [gmap]s, TypeScript's
  [string | undefined] is [option string], thrown values
  are an explicit result type, and the asynchronous executor is written
  in a small state-and-exception monad that records every call made to
  an external collaborator. *)

From Stdlib Require Import ZArith String Ascii List.
Set Warnings "-register-all".
From stdpp Require Import base option list gmap strings.

Local Open Scope string_scope.

(** ** JavaScript values *)

(** The values that flow through both files without being looked into:
  job payload fields, configuration values, rison-decoded objects and
  handles to host objects (clients, services, functions), the latter as
  [JRef]. Numbers that occur here are integers. *)
Inductive JsVal : Type :=
| JUndefined
| JNull
| JBool (b : bool)
| JNum (n : Z)
| JStr (s : string)
| JArr (items : list JsVal)
| JObj (props : list (string * JsVal))
| JRef (handle : nat).

(** ToBoolean of ECMAScript, as used by [? :] and [||]. *)
Definition truthy (v : JsVal) : bool :=
  match v with
  | JUndefined | JNull => false
  | JBool b => b
  | JNum n => negb (Z.eqb n 0)
  | JStr s => negb (String.eqb s "")
  | JArr _ | JObj _ | JRef _ => true
  end.

(** [a || b] *)
Definition js_or (a b : JsVal) : JsVal := if truthy a then a else b.

(** A thrown value. [NewError m] is [new Error(m)] created by the code under
    study; [Foreign s] is an error a collaborator threw or rejected with, or
    a TypeError of the runtime, named by the string its [toString()] gives;
    [ThrownUndefined] and [ThrownNull] are a rejection with [undefined] and
    with [null], which have no [toString]; [Unprintable raised] is a
    rejection with a value whose [toString()] throws [raised] (a TypeError
    when the value has no such method). *)
Inductive Exn : Type :=
| NewError (message : string)
| Foreign (shown : string)
| ThrownUndefined
| ThrownNull
| Unprintable (raised : Exn).

(** Outcome of an expression that may throw. *)
Inductive result (A : Type) : Type :=
| Ok (a : A)
| Thrown (e : Exn).
Arguments Ok {A} a.
Arguments Thrown {A} e.

(** [err.toString()]: Error.prototype.toString gives the name alone when the
    message is empty, [name: message] otherwise; on [undefined] and [null]
    the property access throws a TypeError; a [toString] of the value's own
    may throw. *)
Definition toString (e : Exn) : result string :=
  match e with
  | NewError "" => Ok "Error"
  | NewError m => Ok ("Error: " +:+ m)
  | Foreign s => Ok s
  | ThrownUndefined =>
      Thrown (Foreign "TypeError: Cannot read property 'toString' of undefined")
  | ThrownNull =>
      Thrown (Foreign "TypeError: Cannot read property 'toString' of null")
  | Unprintable raised => Thrown raised
  end.
Arguments toString : simpl never.

(** * Alert-list selectors *)

Module AlertSelectors.

(** What [querystring.parse] stores under a key: one string, or an array of
    strings when the key occurs more than once. *)
Inductive QueryValue : Type :=
| QStr (s : string)
| QArr (values : list string).

(** The location object kept in the state (history's Location). *)
Record Location : Type := {
  pathname : string;
  search : string;
  hash : string;
}.

(** reselect's [defaultMemoize], the cache every [createSelector] selector
    carries: the last arguments and the last result. [same_ref] is [===] on
    the arguments. A throwing [func] leaves the cell as it was. *)
Record MemoCell (A R : Type) : Type := {
  lastArgs : option A;
  lastResult : option R;
}.
Arguments lastArgs {A R} _.
Arguments lastResult {A R} _.

Definition recompute {A R} (func : A -> result R) (cell : MemoCell A R)
    (args : A) : result R * MemoCell A R :=
  match func args with
  | Ok r => (Ok r, {| lastArgs := Some args; lastResult := Some r |})
  | Thrown e => (Thrown e, cell)
  end.

Definition defaultMemoize {A R} (same_ref : A -> A -> bool)
    (func : A -> result R) (cell : MemoCell A R) (args : A)
    : result R * MemoCell A R :=
  match lastArgs cell, lastResult cell with
  | Some prev, Some r =>
      if same_ref prev args
      then (Ok r, {| lastArgs := Some args; lastResult := Some r |})
      else recompute func cell args
  | _, _ => recompute func cell args
  end.

(** A cell holds a result only together with arguments that give it. *)
Definition cell_ok {A R} (func : A -> result R) (cell : MemoCell A R) : Prop :=
  forall prev r,
    lastArgs cell = Some prev -> lastResult cell = Some r -> func prev = Ok r.

Section Selectors.

(** Element types of the state that the selectors never look into. *)
Context {AlertData AlertDetails IndexPattern : Type}.

Record SearchBarState : Type := {
  patterns : list IndexPattern;
}.

(** AlertListState, with the fields the selectors read. *)
Record AlertListState : Type := {
  alerts : list AlertData;
  alertDetails : option AlertDetails;
  pageIndex : Z;
  pageSize : Z;
  total : Z;
  location : option Location;
  searchBar : SearchBarState;
}.

(** Third-party functions: [querystring.parse], and rison's [encode] and
    [decode] ([decode] throws on malformed input). *)
Variable parse : string -> gmap string QueryValue.
Variable encode : JsVal -> string.
Variable decode : string -> result JsVal.

(** reselect's [createSelector]: the result function applied to the results
    of the input selectors. The cache reselect adds is [defaultMemoize]
    above; [defaultMemoize_transparent] shows that it does not change what
    a selector returns. *)
Definition createSelector {S A R} (dep : S -> A) (f : A -> R) : S -> R :=
  fun state => f (dep state).

Definition createSelector2 {S A B R}
    (dep1 : S -> A) (dep2 : S -> B) (f : A -> B -> R) : S -> R :=
  fun state => f (dep1 state) (dep2 state).

Definition alertListData (state : AlertListState) : list AlertData :=
  alerts state.

Definition selectedAlertDetailsData (state : AlertListState)
    : option AlertDetails :=
  alertDetails state.

Record Pagination : Type := {
  pg_pageIndex : Z;
  pg_pageSize : Z;
  pg_total : Z;
}.

Definition alertListPagination (state : AlertListState) : Pagination :=
  {| pg_pageIndex := pageIndex state;
     pg_pageSize := pageSize state;
     pg_total := total state |}.

Definition isOnAlertPage (state : AlertListState) : bool :=
  match location state with
  | Some loc => String.eqb (pathname loc) "/alerts"
  | None => false
  end.

(** [s.slice(1)] *)
Definition slice1 (s : string) : string :=
  match s with
  | EmptyString => EmptyString
  | String _ rest => rest
  end.

Definition keys : list string :=
  ["page_size"; "page_index"; "selected_alert"; "query"; "date_range";
   "filters"].

(** One turn of the loop over [keys]. [value[value.length - 1]] is [last],
    which is [undefined] on an empty array; a property that holds
    [undefined] is [Some None] in the map. *)
Definition pick_key (query : gmap string QueryValue)
    (data : gmap string (option string)) (key : string)
    : gmap string (option string) :=
  match query !! key with
  | Some (QStr value) => <[key := Some value]> data
  | Some (QArr value) => <[key := last value]> data
  | None => data
  end.

(** What the loop stores under [key]: nothing when the query string has no
    such key. *)
Definition picked (query : gmap string QueryValue) (key : string)
    : option (option string) :=
  match query !! key with
  | Some (QStr value) => Some (Some value)
  | Some (QArr value) => Some (last value)
  | None => None
  end.

(** The result function of [uiQueryParams]. *)
Definition uiQueryParams_of (loc : option Location)
    : gmap string (option string) :=
  match loc with
  | Some l =>
      let query := parse (slice1 (search l)) in
      foldl (pick_key query) ∅ keys
  | None => ∅
  end.

Definition uiQueryParams : AlertListState -> gmap string (option string) :=
  createSelector location uiQueryParams_of.

(** Reading a property into a variable, as destructuring does: [undefined]
    when the property is absent. *)
Definition prop (o : gmap string (option string)) (key : string)
    : option string :=
  mjoin (o !! key).

(** The last value of an array of strings, [default] when it has none. *)
Definition default_last (default : string) (value : list string) : string :=
  match last value with
  | Some v => v
  | None => default
  end.

Definition searchBarQuery : AlertListState -> result JsVal :=
  createSelector uiQueryParams (fun params =>
    match prop params "query" with
    | Some query => decode query
    | None => Ok (JObj [("query", JStr ""); ("language", JStr "kuery")])
    end).

Definition encodedSearchBarDateRange : AlertListState -> string :=
  createSelector uiQueryParams (fun params =>
    match prop params "date_range" with
    | None => encode (JObj [("from", JStr "now-24h"); ("to", JStr "now")])
    | Some dateRange => dateRange
    end).

Definition searchBarDateRange : AlertListState -> result JsVal :=
  createSelector encodedSearchBarDateRange (fun encodedDateRange =>
    decode encodedDateRange).

Definition searchBarFilters : AlertListState -> result JsVal :=
  createSelector uiQueryParams (fun params =>
    match prop params "filters" with
    | Some filters => decode filters
    | None => Ok (JArr [])
    end).

Definition searchBarIndexPatterns (state : AlertListState)
    : list IndexPattern :=
  patterns (searchBar state).

Definition apiQueryParams : AlertListState -> gmap string (option string) :=
  createSelector2 uiQueryParams encodedSearchBarDateRange
    (fun params encodedDateRange =>
       list_to_map
         [("page_size", prop params "page_size");
          ("page_index", prop params "page_index");
          ("query", prop params "query");
          ("date_range", Some encodedDateRange);
          ("filters", prop params "filters")]).

Definition hasSelectedAlert : AlertListState -> bool :=
  createSelector uiQueryParams (fun params =>
    match prop params "selected_alert" with
    | Some _ => true
    | None => false
    end).

End Selectors.

End AlertSelectors.

(** * The CSV export job executor *)

Module ExecuteJob.

(** JobDocPayloadDiscoverCsv, the payload of a CSV job. A field holds what
    the object behind it holds at the time: the executor hands the objects
    on by reference, except [headers] (tested with [typeof], a string when
    it is handed on) and [basePath] (tested for truthiness). The objects of
    different fields are taken to be different objects. *)
Record JobDocPayloadDiscoverCsv : Type := {
  searchRequest : JsVal;
  fields : JsVal;
  indexPatternSavedObject : JsVal;
  metaFields : JsVal;
  conflictedTypesFields : JsVal;
  headers : JsVal;
  basePath : JsVal;
}.

(** A logger is the parent logger or a clone of a logger with further
    tags. *)
Inductive Logger : Type :=
| ParentLogger
| Clone (parent : Logger) (tags : list string).

(** The object given to [KibanaRequest.from]. [getBasePath] is a constant
    function and is kept as the value it returns. *)
Record FakeRequest : Type := {
  fr_headers : JsVal;
  fr_getBasePath : JsVal;
  fr_path : string;
  fr_route_settings : JsVal;
  fr_url_href : string;
  fr_raw_req_url : string;
}.

(** The settings handed to [generateCsv]. *)
Record CsvSettings : Type := {
  separator : JsVal;
  quoteValues : JsVal;
  timezone : JsVal;
  checkForFormulas : JsVal;
  maxSizeBytes : JsVal;
  scroll : JsVal;
}.

(** What [getUiSettings] returns. *)
Record UiSettings : Type := {
  ui_separator : JsVal;
  ui_quoteValues : JsVal;
  ui_timezone : JsVal;
}.

(** What [generateCsv] resolves to. *)
Record GenerateCsvResult : Type := {
  gen_content : string;
  gen_maxSizeReached : JsVal;
  gen_size : JsVal;
  gen_csvContainsFormulas : JsVal;
}.

(** What [executeJob] resolves to. *)
Record JobResult : Type := {
  content_type : string;
  content : string;
  max_size_reached : JsVal;
  size : JsVal;
  csv_contains_formulas : JsVal;
}.

(** The message descriptor given to [i18n.translate]. *)
Record Message : Type := {
  msg_id : string;
  defaultMessage : string;
  values : list (string * string);
}.

(** The fields of the payload that hold objects handed on by reference. *)
Inductive Field : Type :=
| SearchRequest
| Fields
| IndexPatternSavedObject
| MetaFields
| ConflictedTypesFields.

Section Executor.

(** The type of the cancellation token: [any] in the source, and nothing
    below depends on what it is. *)
Context {Token : Type}.

(** The argument object of [generateCsv]. [arg_callEndpoint] is the
    [callAsCurrentUser] function that [callEndpoint] forwards to. *)
Record GenerateCsvArgs : Type := {
  arg_searchRequest : JsVal;
  arg_fields : JsVal;
  arg_metaFields : JsVal;
  arg_conflictedTypesFields : JsVal;
  arg_callEndpoint : JsVal;
  arg_cancellationToken : Token;
  arg_formatsMap : JsVal;
  arg_settings : CsvSettings;
}.

(** The calls [executeJobFactory] and [executeJob] make to collaborators
    outside the file, each with its arguments. *)
Inductive Call : Type :=
| GetConfig
| ConfigGet (config : JsVal) (path : list string)
| KbnConfigGet (config : JsVal) (path : list string)
| CryptoFactory (encryptionKey : JsVal)
| GetElasticsearchService
| CryptoDecrypt (crypto : JsVal) (encrypted : string)
| KibanaRequestFrom (request : FakeRequest)
| AsScoped (elasticsearch : JsVal) (request : JsVal)
| GetSavedObjectsClient (request : JsVal)
| GetUiSettingsServiceFactory (savedObjectsClient : JsVal)
| FieldFormatServiceFactory (client : JsVal)
| FieldFormatMapFactory (indexPatternSavedObject : JsVal)
    (fieldFormats : JsVal)
| ClientGet (client : JsVal) (key : string)
| CreateGenerateCsv (jobLogger : Logger)
| GenerateCsv (generateCsv : JsVal) (args : GenerateCsvArgs).

(** What a call gives back when it does not throw. *)
Definition Resp (c : Call) : Type :=
  match c with
  | GenerateCsv _ _ => GenerateCsvResult
  | _ => JsVal
  end.

(** What a run leaves behind, in order: the calls to collaborators, each
    with what it gave back or threw, log entries, and one [EvAll] for each
    [Promise.all], holding what each of its promises did. The events of the
    promises of one [Promise.all] are kept apart, so that no interleaving
    of them is fixed. *)
Inductive Event : Type :=
| EvCall (c : Call) (answer : result (Resp c))
| EvLogError (logger : Logger) (err : Exn)
| EvLogWarn (logger : Logger) (message : string)
| EvAll (branches : list (list Event)).

(** The collaborators: the state they keep, and how each call is answered
    (a value or a throw) in a given state. *)
Context {World : Type}.
Variable respond : forall c : Call, World -> result (Resp c) * World.

(** What a collaborator does to an object it is handed by reference: call
    [c], made when the collaborators are in state [w], leaves the object it
    is handed from [field] of the payload, which held [v], holding
    [touch c w field v]. *)
Variable touch : Call -> World -> Field -> JsVal -> JsVal.

(** Whether call [c], when it fails in state [w], throws at once instead of
    returning a promise that rejects. *)
Variable at_once : Call -> World -> bool.

(** The timing of rejections, which is the collaborators' affair: of the
    promises of one [Promise.all] that reject, the one at this position
    (among those that reject, in the order of the array) rejects first; a
    position beyond the last stands for the first. *)
Variable earliest : World -> nat.

(** [i18n.translate] and the two imported constants. *)
Variable translate : Message -> string.
Variable CSV_JOB_TYPE : string.
Variable CSV_BOM_CHARS : string.

(** The state a run goes through: the collaborators' state, the job payload
    objects that exist (mutable objects, named by reference and reachable
    from the caller while a job runs), and the events so far. *)
Record State : Type := {
  world : World;
  jobs : gmap nat JobDocPayloadDiscoverCsv;
  trace : list Event;
}.

Definition M (A : Type) : Type := State -> result A * State.

Definition ret {A} (a : A) : M A := fun s => (Ok a, s).

Definition throw {A} (e : Exn) : M A := fun s => (Thrown e, s).

Definition bind {A B} (m : M A) (k : A -> M B) : M B :=
  fun s =>
    match m s with
    | (Ok a, s') => k a s'
    | (Thrown e, s') => (Thrown e, s')
    end.

(** [try { body } catch (err) { handler }] *)
Definition try_catch {A} (body : M A) (handler : Exn -> M A) : M A :=
  fun s =>
    match body s with
    | (Ok a, s') => (Ok a, s')
    | (Thrown e, s') => handler e s'
    end.

Definition emit (ev : Event) : M unit :=
  fun s =>
    (Ok tt, {| world := world s; jobs := jobs s;
               trace := trace s ++ [ev] |}).

(** [s] with [events] as its events. *)
Definition with_trace (events : list Event) (s : State) : State :=
  {| world := world s; jobs := jobs s; trace := events |}.

(** A call to a collaborator in the body of an async function, awaited where
    it returns a promise: the function goes on with the value, or throws
    what the collaborator threw or its promise rejected with. The arguments
    of such a call are strings, values other collaborators gave and objects
    made for the call: no object of the payload is among them. *)
Definition call (c : Call) : M (Resp c) :=
  fun s =>
    let '(r, w) := respond c (world s) in
    (r, {| world := w; jobs := jobs s;
           trace := trace s ++ [EvCall c r] |}).

(** The payload after the object in [field] went through [f]. *)
Definition touch_field (f : Field -> JsVal -> JsVal) (field : Field)
    (p : JobDocPayloadDiscoverCsv) : JobDocPayloadDiscoverCsv :=
  match field with
  | SearchRequest =>
      {| searchRequest := f SearchRequest (searchRequest p);
         fields := fields p;
         indexPatternSavedObject := indexPatternSavedObject p;
         metaFields := metaFields p;
         conflictedTypesFields := conflictedTypesFields p;
         headers := headers p;
         basePath := basePath p |}
  | Fields =>
      {| searchRequest := searchRequest p;
         fields := f Fields (fields p);
         indexPatternSavedObject := indexPatternSavedObject p;
         metaFields := metaFields p;
         conflictedTypesFields := conflictedTypesFields p;
         headers := headers p;
         basePath := basePath p |}
  | IndexPatternSavedObject =>
      {| searchRequest := searchRequest p;
         fields := fields p;
         indexPatternSavedObject := f IndexPatternSavedObject (indexPatternSavedObject p);
         metaFields := metaFields p;
         conflictedTypesFields := conflictedTypesFields p;
         headers := headers p;
         basePath := basePath p |}
  | MetaFields =>
      {| searchRequest := searchRequest p;
         fields := fields p;
         indexPatternSavedObject := indexPatternSavedObject p;
         metaFields := f MetaFields (metaFields p);
         conflictedTypesFields := conflictedTypesFields p;
         headers := headers p;
         basePath := basePath p |}
  | ConflictedTypesFields =>
      {| searchRequest := searchRequest p;
         fields := fields p;
         indexPatternSavedObject := indexPatternSavedObject p;
         metaFields := metaFields p;
         conflictedTypesFields := f ConflictedTypesFields (conflictedTypesFields p);
         headers := headers p;
         basePath := basePath p |}
  end.

(** The same call, with the objects in the fields [handed] of the payload
    behind [job] among its arguments. They are passed by reference: what the
    collaborator does to them while it answers shows in the payload. *)
Definition call_handing (job : nat) (handed : list Field) (c : Call)
    : M (Resp c) :=
  fun s =>
    let '(r, w) := respond c (world s) in
    (r, {| world := w;
           jobs := alter (fun p => foldr (touch_field (touch c (world s)))
                                     p handed)
                     job (jobs s);
           trace := trace s ++ [EvCall c r] |}).

(** Reading the payload object behind the reference [job], as the
    destructuring of [job] does; destructuring [undefined] is a TypeError. *)
Definition read_job (job : nat) : M JobDocPayloadDiscoverCsv :=
  fun s =>
    match jobs s !! job with
    | Some p => (Ok p, s)
    | None => (Thrown (Foreign "TypeError: Cannot destructure 'job'"), s)
    end.

Definition logger_error (logger : Logger) (err : Exn) : M unit :=
  emit (EvLogError logger err).

Definition logger_warn (logger : Logger) (message : string) : M unit :=
  emit (EvLogWarn logger message).

(** ** Promises *)

(** What evaluating an expression that should give a promise comes to:
    a promise, or a throw before there is one. [did] holds the events of
    the evaluation; [rest] is what the promise still does until it settles,
    and how it settles. *)
Inductive Started (A : Type) : Type :=
| Promised (did : list Event) (rest : M A)
| ThrewAtOnce (did : list Event) (e : Exn).
Arguments Promised {A} did rest.
Arguments ThrewAtOnce {A} did e.

(** An expression that should give a promise. Its events go to [did], not
    to the events of the state. *)
Definition Starting (A : Type) : Type := State -> Started A * State.

(** A call to a collaborator as an element of an array literal, not awaited
    there. The collaborator acts when it is called; the promise it returns
    only delivers the answer. *)
Definition start (c : Call) : Starting (Resp c) :=
  fun s =>
    let '(r, w) := respond c (world s) in
    let s' := {| world := w; jobs := jobs s; trace := trace s |} in
    match r with
    | Ok a => (Promised [EvCall c r] (ret a), s')
    | Thrown e =>
        if at_once c (world s)
        then (ThrewAtOnce [EvCall c r] e, s')
        else (Promised [EvCall c r] (throw e), s')
    end.

(** A call of [async (...) => { const x = await first; then_ x }]. The
    function runs up to its first [await] and returns a promise; it never
    throws at once, since what its body throws rejects the promise. What the
    awaited promise settles to is decided by the calls made in [first]. *)
Definition async {X A} (first : M X) (then_ : X -> M A) : Starting A :=
  fun s =>
    let '(r, s1) := first (with_trace [] s) in
    (Promised (trace s1)
       (match r with
        | Ok x => then_ x
        | Thrown e => throw e
        end),
     with_trace (trace s) s1).

(** [await p] in the body of an async function. *)
Definition await {A} (p : Starting A) : M A :=
  fun s =>
    match p s with
    | (Promised d m, s1) => m (with_trace (trace s ++ d) s1)
    | (ThrewAtOnce d e, s1) => (Thrown e, with_trace (trace s ++ d) s1)
    end.

(** A promise that nothing awaits still runs to its end. *)
Definition unawaited {A} (m : M A) (s : State) : State := snd (m s).

Definition rejections {A} (r : result A) : list Exn :=
  match r with
  | Thrown e => [e]
  | Ok _ => []
  end.

(** The rejection that comes first in time, of those in [rejected] (listed
    in the order of the array): [earliest] picks it. The choice is left to
    [earliest] also where the code fixes it (a promise that is rejected when
    [Promise.all] is called comes before one that rejects later), so the
    runs of the code are among the runs described here. *)
Definition first_rejection (w : World) (rejected : list Exn) : option Exn :=
  match rejected with
  | [] => None
  | e :: _ => Some (nth (earliest w) rejected e)
  end.

(** What [Promise.all] settles to: the values when every promise resolved,
    the first rejection in time otherwise. *)
Definition settle2 {A B} (w : World) (ra : result A) (rb : result B)
    : result (A * B) :=
  match first_rejection w (rejections ra ++ rejections rb) with
  | Some e => Thrown e
  | None =>
      match ra, rb with
      | Ok a, Ok b => Ok (a, b)
      | Thrown e, _ | _, Thrown e => Thrown e
      end
  end.

Definition settle3 {A B C} (w : World) (ra : result A) (rb : result B)
    (rc : result C) : result (A * B * C) :=
  match first_rejection w (rejections ra ++ rejections rb ++ rejections rc)
  with
  | Some e => Thrown e
  | None =>
      match ra, rb, rc with
      | Ok a, Ok b, Ok c => Ok (a, b, c)
      | Thrown e, _, _ | _, Thrown e, _ | _, _, Thrown e => Thrown e
      end
  end.

(** [await Promise.all([a, b])]. The elements of the array are evaluated
    from left to right, each up to the point where it has returned its
    promise. If one throws at once, the later ones are not evaluated and
    [Promise.all] is not called; the promises already made still run. Else
    every promise runs to its end, also when another one rejects, and the
    events of each are kept apart in one [EvAll]. What remains of the
    promises is taken in the order of the array; of the promises of this
    file only the one of getFormatsMap calls a collaborator after its first
    [await], so this fixes no order between calls of different promises. *)
Definition Promise_all2 {A B} (a : Starting A) (b : Starting B) : M (A * B) :=
  fun s =>
    match a s with
    | (ThrewAtOnce da e, s1) => (Thrown e, with_trace (trace s ++ da) s1)
    | (Promised da ma, s1) =>
        match b s1 with
        | (ThrewAtOnce db e, s2) =>
            (Thrown e, unawaited ma (with_trace (trace s ++ da ++ db) s2))
        | (Promised db mb, s2) =>
            let '(ra, s3) := ma (with_trace da s2) in
            let '(rb, s4) := mb (with_trace db s3) in
            (settle2 (world s4) ra rb,
             with_trace (trace s ++ [EvAll [trace s3; trace s4]]) s4)
        end
    end.

(** [await Promise.all([a, b, c])] *)
Definition Promise_all3 {A B C} (a : Starting A) (b : Starting B)
    (c : Starting C) : M (A * B * C) :=
  fun s =>
    match a s with
    | (ThrewAtOnce da e, s1) => (Thrown e, with_trace (trace s ++ da) s1)
    | (Promised da ma, s1) =>
        match b s1 with
        | (ThrewAtOnce db e, s2) =>
            (Thrown e, unawaited ma (with_trace (trace s ++ da ++ db) s2))
        | (Promised db mb, s2) =>
            match c s2 with
            | (ThrewAtOnce dc e, s3) =>
                (Thrown e,
                 unawaited mb
                   (unawaited ma
                      (with_trace (trace s ++ da ++ db ++ dc) s3)))
            | (Promised dc mc, s3) =>
                let '(ra, s4) := ma (with_trace da s3) in
                let '(rb, s5) := mb (with_trace db s4) in
                let '(rc, s6) := mc (with_trace dc s5) in
                (settle3 (world s6) ra rb rc,
                 with_trace
                   (trace s ++ [EvAll [trace s4; trace s5; trace s6]]) s6)
            end
        end
    end.

Local Notation "x <- m ;; k" := (bind m (fun x => k))
  (at level 100, m at next level, right associativity).

(** [v === s] for a string literal [s] *)
Definition strict_eq_str (v : JsVal) (s : string) : bool :=
  match v with
  | JStr t => String.eqb t s
  | _ => false
  end.

(** What [executeJob] closes over: the constants of [executeJobFactory]. *)
Record Closure : Type := {
  config : JsVal;
  crypto : JsVal;
  logger : Logger;
  serverBasePath : JsVal;
}.

Definition missingJobHeadersErrorMessage : Message :=
  {| msg_id :=
       "xpack.reporting.exportTypes.csv.executeJob.missingJobHeadersErrorMessage";
     defaultMessage := "Job headers are missing";
     values := [] |}.

(** The message of the user-facing error; [err] is what [err.toString()]
    gave. *)
Definition failedToDecryptReportJobDataErrorMessage (err : string) : Message :=
  {| msg_id :=
       "xpack.reporting.exportTypes.csv.executeJob.failedToDecryptReportJobDataErrorMessage";
     defaultMessage :=
       "Failed to decrypt report job data. Please ensure that {encryptionKey} is set and re-generate this report. {err}";
     values := [("encryptionKey", "xpack.reporting.encryptionKey");
                ("err", err)] |}.

(** The double quote character, for message texts. *)
Definition dquote : string := String (ascii_of_nat 34) EmptyString.

Definition dateFormateSetting : Message :=
  {| msg_id := "xpack.reporting.exportTypes.csv.executeJob.dateFormateSetting";
     defaultMessage :=
       "Kibana Advanced Setting " +:+ dquote +:+ "{dateFormatTimezone}"
       +:+ dquote +:+ " is set to " +:+ dquote +:+ "Browser" +:+ dquote
       +:+ ". Dates will be formatted as UTC to avoid ambiguity.";
     values := [("dateFormatTimezone", "dateFormat:tz")] |}.

(** [err.toString()] in the body of a function: the string, or the
    TypeError thrown. *)
Definition to_string (err : Exn) : M string := fun s => (toString err, s).

Definition decryptHeaders (cl : Closure) (headers : JsVal) : M JsVal :=
  try_catch
    (match headers with
     | JStr encrypted => call (CryptoDecrypt (crypto cl) encrypted)
     | _ => throw (NewError (translate missingJobHeadersErrorMessage))
     end)
    (fun err =>
       _ <- logger_error (logger cl) err ;;
       shown <- to_string err ;;
       throw (NewError
                (translate (failedToDecryptReportJobDataErrorMessage shown)))).

Definition getFormatsMap (job : nat) (indexPatternSavedObject client : JsVal)
    : Starting JsVal :=
  async (call (FieldFormatServiceFactory client))
    (fun fieldFormats =>
       call_handing job [IndexPatternSavedObject]
         (FieldFormatMapFactory indexPatternSavedObject fieldFormats)).

Definition getUiSettings (cl : Closure) (client : JsVal)
    : Starting UiSettings :=
  async
    (Promise_all3 (start (ClientGet client "csv:separator"))
                  (start (ClientGet client "csv:quoteValues"))
                  (start (ClientGet client "dateFormat:tz")))
    (fun settings =>
       let '(separator, quoteValues, timezone) := settings in
       _ <- (if strict_eq_str timezone "Browser"
             then logger_warn (logger cl) (translate dateFormateSetting)
             else ret tt) ;;
       ret {| ui_separator := separator;
              ui_quoteValues := quoteValues;
              ui_timezone := timezone |}).

(** [job] is the reference to the payload object; its fields are read once,
    by the destructuring after the first [await]. *)
Definition executeJob (cl : Closure) (jobId : string) (job : nat)
    (cancellationToken : Token) : M JobResult :=
  elasticsearch <- call GetElasticsearchService ;;
  let jobLogger := Clone (logger cl) [jobId] in
  p <- read_job job ;;
  decrypted <- decryptHeaders cl (headers p) ;;
  fakeRequest <- call (KibanaRequestFrom
    {| fr_headers := decrypted;
       fr_getBasePath := js_or (basePath p) (serverBasePath cl);
       fr_path := "/";
       fr_route_settings := JObj [];
       fr_url_href := "/";
       fr_raw_req_url := "/" |}) ;;
  callAsCurrentUser <- call (AsScoped elasticsearch fakeRequest) ;;
  let callEndpoint := callAsCurrentUser in
  savedObjectsClient <- call (GetSavedObjectsClient fakeRequest) ;;
  uiSettingsClient <- call (GetUiSettingsServiceFactory savedObjectsClient) ;;
  both <-
    Promise_all2
      (getFormatsMap job (indexPatternSavedObject p) uiSettingsClient)
      (getUiSettings cl uiSettingsClient) ;;
  let '(formatsMap, uiSettings) := both in
  generateCsv <- call (CreateGenerateCsv jobLogger) ;;
  useBom <- call (ConfigGet (config cl) ["csv"; "useByteOrderMarkEncoding"]) ;;
  let bom := if truthy useBom then CSV_BOM_CHARS else "" in
  checkForFormulas' <-
    call (ConfigGet (config cl) ["csv"; "checkForFormulas"]) ;;
  maxSizeBytes' <- call (ConfigGet (config cl) ["csv"; "maxSizeBytes"]) ;;
  scroll' <- call (ConfigGet (config cl) ["csv"; "scroll"]) ;;
  r <- call_handing job
    [SearchRequest; Fields; MetaFields; ConflictedTypesFields]
    (GenerateCsv generateCsv
    {| arg_searchRequest := searchRequest p;
       arg_fields := fields p;
       arg_metaFields := metaFields p;
       arg_conflictedTypesFields := conflictedTypesFields p;
       arg_callEndpoint := callEndpoint;
       arg_cancellationToken := cancellationToken;
       arg_formatsMap := formatsMap;
       arg_settings :=
         {| separator := ui_separator uiSettings;
            quoteValues := ui_quoteValues uiSettings;
            timezone := ui_timezone uiSettings;
            checkForFormulas := checkForFormulas';
            maxSizeBytes := maxSizeBytes';
            scroll := scroll' |} |}) ;;
  ret {| content_type := "text/csv";
         content := bom +:+ gen_content r;
         max_size_reached := gen_maxSizeReached r;
         size := gen_size r;
         csv_contains_formulas := gen_csvContainsFormulas r |}.

Definition executeJobFactory (parentLogger : Logger)
    : M (string -> nat -> Token -> M JobResult) :=
  config' <- call GetConfig ;;
  encryptionKey <- call (ConfigGet config' ["encryptionKey"]) ;;
  crypto' <- call (CryptoFactory encryptionKey) ;;
  let logger' := Clone parentLogger [CSV_JOB_TYPE; "execute-job"] in
  serverBasePath' <- call (KbnConfigGet config' ["server"; "basePath"]) ;;
  ret (executeJob {| config := config'; crypto := crypto';
                     logger := logger'; serverBasePath := serverBasePath' |}).

(** ** Reading a trace *)

(** The calls of a list of events in order, those inside the promises of a
    [Promise.all] included. *)
Fixpoint calls_of_event (ev : Event) : list Call :=
  match ev with
  | EvCall c _ => [c]
  | EvAll branches =>
      concat (List.map (fun b => concat (List.map calls_of_event b)) branches)
  | EvLogError _ _ | EvLogWarn _ _ => []
  end.

Definition calls_of (events : list Event) : list Call :=
  concat (List.map calls_of_event events).

(** How many [Promise.all] a list of events holds, nested ones included. *)
Fixpoint count_all_event (ev : Event) : nat :=
  match ev with
  | EvAll branches =>
      S (list_sum
           (List.map (fun b => list_sum (List.map count_all_event b)) branches))
  | EvCall _ _ | EvLogError _ _ | EvLogWarn _ _ => 0
  end.

Definition count_all (events : list Event) : nat :=
  list_sum (List.map count_all_event events).

Definition is_generateCsv (c : Call) : bool :=
  match c with
  | GenerateCsv _ _ => true
  | _ => false
  end.

Definition is_fieldFormatMapFactory (c : Call) : bool :=
  match c with
  | FieldFormatMapFactory _ _ => true
  | _ => false
  end.

(** The reads of configuration: the field formats and the ui settings. *)
Definition is_configuration_read (c : Call) : bool :=
  match c with
  | FieldFormatServiceFactory _ | FieldFormatMapFactory _ _ | ClientGet _ _ =>
      true
  | _ => false
  end.

(** The [Promise.all] of a list of events, each by its depth of nesting
    (from [depth] on) and the number of promises it holds: an outer one
    before those nested in it. *)
Fixpoint alls_event (depth : nat) (ev : Event) : list (nat * nat) :=
  match ev with
  | EvAll branches =>
      (depth, length branches)
      :: concat (List.map
                   (fun b => concat (List.map (alls_event (S depth)) b))
                   branches)
  | EvCall _ _ | EvLogError _ _ | EvLogWarn _ _ => []
  end.

Definition alls (events : list Event) : list (nat * nat) :=
  concat (List.map (alls_event 0) events).

(** The calls made inside a [Promise.all]. *)
Definition parallel_calls (events : list Event) : list Call :=
  concat (List.map (fun ev => match ev with
                              | EvAll _ => calls_of_event ev
                              | _ => []
                              end) events).

(** The tokens a call carries. *)
Definition tokens_of (c : Call) : list Token :=
  match c with
  | GenerateCsv _ args => [arg_cancellationToken args]
  | _ => []
  end.

(** The tokens handed to collaborators in a list of events. *)
Definition tokens_in (events : list Event) : list Token :=
  concat (List.map tokens_of (calls_of events)).

(** ** The shape of a successful run *)

(** What the collaborators answered in a run that went through. *)
Record Answers : Type := {
  a_elasticsearch : JsVal;
  a_decrypted : JsVal;
  a_fakeRequest : JsVal;
  a_callAsCurrentUser : JsVal;
  a_savedObjectsClient : JsVal;
  a_uiSettingsClient : JsVal;
  a_fieldFormats : JsVal;
  a_formatsMap : JsVal;
  a_separator : JsVal;
  a_quoteValues : JsVal;
  a_timezone : JsVal;
  a_generateCsv : JsVal;
  a_useByteOrderMarkEncoding : JsVal;
  a_checkForFormulas : JsVal;
  a_maxSizeBytes : JsVal;
  a_scroll : JsVal;
  a_csv : GenerateCsvResult;
}.

(** The synthetic request of such a run. *)
Definition request_of (cl : Closure) (p : JobDocPayloadDiscoverCsv)
    (a : Answers) : FakeRequest :=
  {| fr_headers := a_decrypted a;
     fr_getBasePath := js_or (basePath p) (serverBasePath cl);
     fr_path := "/";
     fr_route_settings := JObj [];
     fr_url_href := "/";
     fr_raw_req_url := "/" |}.

(** The argument of [generateCsv] in such a run. *)
Definition args_of (p : JobDocPayloadDiscoverCsv) (a : Answers)
    (cancellationToken : Token) : GenerateCsvArgs :=
  {| arg_searchRequest := searchRequest p;
     arg_fields := fields p;
     arg_metaFields := metaFields p;
     arg_conflictedTypesFields := conflictedTypesFields p;
     arg_callEndpoint := a_callAsCurrentUser a;
     arg_cancellationToken := cancellationToken;
     arg_formatsMap := a_formatsMap a;
     arg_settings :=
       {| separator := a_separator a;
          quoteValues := a_quoteValues a;
          timezone := a_timezone a;
          checkForFormulas := a_checkForFormulas a;
          maxSizeBytes := a_maxSizeBytes a;
          scroll := a_scroll a |} |}.

(** The events of the configuration step: one [Promise.all] of two promises,
    the second of which holds the [Promise.all] of the three settings and
    the warning about the ['Browser'] time zone. *)
Definition config_events (cl : Closure) (p : JobDocPayloadDiscoverCsv)
    (a : Answers) : Event :=
  EvAll
    [[EvCall (FieldFormatServiceFactory (a_uiSettingsClient a))
        (Ok (a_fieldFormats a));
      EvCall (FieldFormatMapFactory (indexPatternSavedObject p)
                (a_fieldFormats a))
        (Ok (a_formatsMap a))];
     EvAll [[EvCall (ClientGet (a_uiSettingsClient a) "csv:separator")
               (Ok (a_separator a))];
            [EvCall (ClientGet (a_uiSettingsClient a) "csv:quoteValues")
               (Ok (a_quoteValues a))];
            [EvCall (ClientGet (a_uiSettingsClient a) "dateFormat:tz")
               (Ok (a_timezone a))]]
     :: (if strict_eq_str (a_timezone a) "Browser"
         then [EvLogWarn (logger cl) (translate dateFormateSetting)]
         else [])].

(** The events of such a run, in order. *)
Definition success_events (cl : Closure) (jobId : string)
    (p : JobDocPayloadDiscoverCsv) (encrypted : string) (a : Answers)
    (cancellationToken : Token) : list Event :=
  [EvCall GetElasticsearchService (Ok (a_elasticsearch a));
   EvCall (CryptoDecrypt (crypto cl) encrypted) (Ok (a_decrypted a));
   EvCall (KibanaRequestFrom (request_of cl p a)) (Ok (a_fakeRequest a));
   EvCall (AsScoped (a_elasticsearch a) (a_fakeRequest a))
     (Ok (a_callAsCurrentUser a));
   EvCall (GetSavedObjectsClient (a_fakeRequest a))
     (Ok (a_savedObjectsClient a));
   EvCall (GetUiSettingsServiceFactory (a_savedObjectsClient a))
     (Ok (a_uiSettingsClient a));
   config_events cl p a;
   EvCall (CreateGenerateCsv (Clone (logger cl) [jobId]))
     (Ok (a_generateCsv a));
   EvCall (ConfigGet (config cl) ["csv"; "useByteOrderMarkEncoding"])
     (Ok (a_useByteOrderMarkEncoding a));
   EvCall (ConfigGet (config cl) ["csv"; "checkForFormulas"])
     (Ok (a_checkForFormulas a));
   EvCall (ConfigGet (config cl) ["csv"; "maxSizeBytes"])
     (Ok (a_maxSizeBytes a));
   EvCall (ConfigGet (config cl) ["csv"; "scroll"]) (Ok (a_scroll a));
   EvCall (GenerateCsv (a_generateCsv a) (args_of p a cancellationToken))
     (Ok (a_csv a))].

(** The result of such a run. *)
Definition result_of (a : Answers) : JobResult :=
  {| content_type := "text/csv";
     content :=
       (if truthy (a_useByteOrderMarkEncoding a) then CSV_BOM_CHARS else "")
       +:+ gen_content (a_csv a);
     max_size_reached := gen_maxSizeReached (a_csv a);
     size := gen_size (a_csv a);
     csv_contains_formulas := gen_csvContainsFormulas (a_csv a) |}.

(** ** Properties of runs *)

(** The payload after [fieldFormatMapFactory] did [fm] to the object it was
    handed and [generateCsv] did [gen] to the four it was handed. *)
Definition handed_over (fm gen : Field -> JsVal -> JsVal)
    (p : JobDocPayloadDiscoverCsv) : JobDocPayloadDiscoverCsv :=
  {| searchRequest := gen SearchRequest (searchRequest p);
     fields := gen Fields (fields p);
     indexPatternSavedObject :=
       fm IndexPatternSavedObject (indexPatternSavedObject p);
     metaFields := gen MetaFields (metaFields p);
     conflictedTypesFields :=
       gen ConflictedTypesFields (conflictedTypesFields p);
     headers := headers p;
     basePath := basePath p |}.

(** What a collaborator that was called as one of [calls], or not at all,
    did to the objects it was handed: what [touch] says of such a call, or
    nothing. *)
Definition done_by (calls : list Call) (f : Field -> JsVal -> JsVal)
    : Prop :=
  (calls = [] /\ f = (fun _ v => v)) \/
  (exists c w, calls = [c] /\ f = touch c w).

(** Collaborators that leave alone what they are handed. *)
Definition hands_off : Prop := forall c w field v, touch c w field v = v.

(** Collaborators that answer every call. *)
Definition all_answer : Prop :=
  forall c w, exists a w', respond c w = (Ok a, w').

(** Headers that cannot be decrypted: anything but a string, and a string
    on which [crypto.decrypt] rejects. *)
Definition cannot_decrypt (cl : Closure) (h : JsVal) : Prop :=
  match h with
  | JStr encrypted =>
      forall w, exists err w',
        respond (CryptoDecrypt (crypto cl) encrypted) w = (Thrown err, w')
  | _ => True
  end.

(** What [decryptHeaders] does before it logs, when the error behind the
    failure is [err]: on a string, the call of [crypto.decrypt] that
    rejected with [err]; on anything else no call, and [err] is the error
    about missing headers. *)
Definition decrypt_attempt (cl : Closure) (h : JsVal) (err : Exn)
    : list Event :=
  match h with
  | JStr encrypted =>
      [EvCall (CryptoDecrypt (crypto cl) encrypted) (Thrown err)]
  | _ => []
  end.

Definition underlying_error (h : JsVal) (err : Exn) : Prop :=
  match h with
  | JStr _ => True
  | _ => err = NewError (translate missingJobHeadersErrorMessage)
  end.

(** What [decryptHeaders] throws once it has logged [err]: the user-facing
    error made from the string of [err], or the TypeError of an [err]
    without [toString]. *)
Definition thrown_for (err : Exn) : Exn :=
  match toString err with
  | Ok shown =>
      NewError (translate (failedToDecryptReportJobDataErrorMessage shown))
  | Thrown type_error => type_error
  end.

(** Putting another token into the argument of [generateCsv]. *)
Definition with_token (t : Token) (args : GenerateCsvArgs) : GenerateCsvArgs :=
  {| arg_searchRequest := arg_searchRequest args;
     arg_fields := arg_fields args;
     arg_metaFields := arg_metaFields args;
     arg_conflictedTypesFields := arg_conflictedTypesFields args;
     arg_callEndpoint := arg_callEndpoint args;
     arg_cancellationToken := t;
     arg_formatsMap := arg_formatsMap args;
     arg_settings := arg_settings args |}.

(** The event of a call with another token in the call, the answer kept. *)
Definition call_with_token (t : Token) (c : Call)
    : result (Resp c) -> Event :=
  match c with
  | GenerateCsv g args => fun r => EvCall (GenerateCsv g (with_token t args)) r
  | c' => fun r => EvCall c' r
  end.

Fixpoint event_with_token (t : Token) (ev : Event) : Event :=
  match ev with
  | EvCall c r => call_with_token t c r
  | EvAll branches =>
      EvAll (List.map (List.map (event_with_token t)) branches)
  | EvLogError _ _ | EvLogWarn _ _ => ev
  end.

(** Collaborators among which [generateCsv] answers without regard to the
    token it is given. *)
Definition token_blind : Prop :=
  forall g args t w,
    respond (GenerateCsv g (with_token t args)) w =
    respond (GenerateCsv g args) w.

End Executor.

End ExecuteJob.

(** * Further readings of a run of the job executor *)

Module ExecuteJobTrace.

Import ExecuteJob.

Section Readers.

Context {Token : Type}.

(** What the calls of a list of events threw, in order, those inside the
    promises of a [Promise.all] included. *)
Fixpoint thrown_in_event (ev : @Event Token) : list Exn :=
  match ev with
  | EvCall _ answer =>
      match answer with
      | Thrown e => [e]
      | Ok _ => []
      end
  | EvAll branches =>
      concat (List.map (fun b => concat (List.map thrown_in_event b)) branches)
  | EvLogError _ _ | EvLogWarn _ _ => []
  end.

Definition thrown_in (events : list (@Event Token)) : list Exn :=
  concat (List.map thrown_in_event events).

(** The loggers the log entries of a list of events were written to. *)
Fixpoint loggers_in_event (ev : @Event Token) : list Logger :=
  match ev with
  | EvLogError l _ | EvLogWarn l _ => [l]
  | EvAll branches =>
      concat (List.map (fun b => concat (List.map loggers_in_event b)) branches)
  | EvCall _ _ => []
  end.

Definition loggers_in (events : list (@Event Token)) : list Logger :=
  concat (List.map loggers_in_event events).

(** The object given to [KibanaRequest.from], if the call is that one. *)
Definition requests_of (c : @Call Token) : list FakeRequest :=
  match c with
  | KibanaRequestFrom request => [request]
  | _ => []
  end.

(** The logger given to [createGenerateCsv], if the call is that one. *)
Definition job_loggers_of (c : @Call Token) : list Logger :=
  match c with
  | CreateGenerateCsv jobLogger => [jobLogger]
  | _ => []
  end.

Variable translate : Message -> string.

(** The events of a run that got as far as calling [generateCsv], which
    answered [answer]: those of [success_events], with that answer as the
    last one. *)
Definition attempt_events (cl : Closure) (jobId : string)
    (p : JobDocPayloadDiscoverCsv) (encrypted : string) (a : Answers)
    (cancellationToken : Token) (answer : result GenerateCsvResult)
    : list (@Event Token) :=
  removelast (success_events translate cl jobId p encrypted a cancellationToken)
  ++ [EvCall (GenerateCsv (a_generateCsv a) (args_of p a cancellationToken))
        answer].


End Readers.

End ExecuteJobTrace.

(** * The provider of the machine learning test services *)

Module MachineLearning.

(** The providers [MachineLearningProvider] puts together. *)
Inductive Provider : Type :=
| MachineLearningAnomalyExplorerProvider
| MachineLearningAPIProvider
| MachineLearningCommonProvider
| MachineLearningDataFrameAnalyticsProvider
| MachineLearningDataVisualizerProvider
| MachineLearningJobManagementProvider
| MachineLearningJobSourceSelectionProvider
| MachineLearningJobTableProvider
| MachineLearningJobTypeSelectionProvider
| MachineLearningJobWizardAdvancedProvider
| MachineLearningJobWizardCommonProvider
| MachineLearningJobWizardMultiMetricProvider
| MachineLearningJobWizardPopulationProvider
| MachineLearningNavigationProvider
| MachineLearningSettingsProvider
| MachineLearningSingleMetricViewerProvider.

#[global] Instance Provider_eq_dec : EqDecision Provider.
Proof. solve_decision. Defined.

(** One call of a provider: the provider, the context it is given, and the
    service it is given besides, if any. *)
Record Construction : Type := {
  provider : Provider;
  given_context : JsVal;
  given_service : option JsVal;
}.

Section Provider.

(** The providers are imported: the state they keep, and what each call
    gives back or throws. *)
Context {World : Type}.
Variable construct : Construction -> World -> result JsVal * World.

(** The providers' state and the calls made so far, with their answers. *)
Definition Built : Type := World * list (Construction * result JsVal).

Definition Build (A : Type) : Type := Built -> result A * Built.

Definition build_ret {A} (a : A) : Build A := fun b => (Ok a, b).

Definition build_bind {A B} (m : Build A) (k : A -> Build B) : Build B :=
  fun b =>
    match m b with
    | (Ok a, b') => k a b'
    | (Thrown e, b') => (Thrown e, b')
    end.

Definition provide (p : Provider) (context : JsVal) (service : option JsVal)
    : Build JsVal :=
  fun b =>
    let c := {| provider := p; given_context := context;
                given_service := service |} in
    let '(r, w) := construct c (fst b) in
    (r, (w, (snd b ++ [(c, r)])%list)).

Local Notation "x <- m ;; k" := (build_bind m (fun x => k))
  (at level 100, m at next level, right associativity).

Definition MachineLearningProvider (context : JsVal) : Build JsVal :=
  common <- provide MachineLearningCommonProvider context None ;;
  anomalyExplorer <-
    provide MachineLearningAnomalyExplorerProvider context None ;;
  api <- provide MachineLearningAPIProvider context None ;;
  dataFrameAnalytics <-
    provide MachineLearningDataFrameAnalyticsProvider context None ;;
  dataVisualizer <-
    provide MachineLearningDataVisualizerProvider context None ;;
  jobManagement <-
    provide MachineLearningJobManagementProvider context (Some api) ;;
  jobSourceSelection <-
    provide MachineLearningJobSourceSelectionProvider context None ;;
  jobTable <- provide MachineLearningJobTableProvider context None ;;
  jobTypeSelection <-
    provide MachineLearningJobTypeSelectionProvider context None ;;
  jobWizardAdvanced <-
    provide MachineLearningJobWizardAdvancedProvider context (Some common) ;;
  jobWizardCommon <-
    provide MachineLearningJobWizardCommonProvider context (Some common) ;;
  jobWizardMultiMetric <-
    provide MachineLearningJobWizardMultiMetricProvider context None ;;
  jobWizardPopulation <-
    provide MachineLearningJobWizardPopulationProvider context None ;;
  navigation <- provide MachineLearningNavigationProvider context None ;;
  settings <- provide MachineLearningSettingsProvider context None ;;
  singleMetricViewer <-
    provide MachineLearningSingleMetricViewerProvider context None ;;
  build_ret (JObj
    [("anomalyExplorer", anomalyExplorer);
     ("api", api);
     ("dataFrameAnalytics", dataFrameAnalytics);
     ("dataVisualizer", dataVisualizer);
     ("jobManagement", jobManagement);
     ("jobSourceSelection", jobSourceSelection);
     ("jobTable", jobTable);
     ("jobTypeSelection", jobTypeSelection);
     ("jobWizardAdvanced", jobWizardAdvanced);
     ("jobWizardCommon", jobWizardCommon);
     ("jobWizardMultiMetric", jobWizardMultiMetric);
     ("jobWizardPopulation", jobWizardPopulation);
     ("navigation", navigation);
     ("settings", settings);
     ("singleMetricViewer", singleMetricViewer)]).

(** The providers in the order [MachineLearningProvider] calls them. *)
Definition construction_order : list Provider :=
  [MachineLearningCommonProvider;
   MachineLearningAnomalyExplorerProvider;
   MachineLearningAPIProvider;
   MachineLearningDataFrameAnalyticsProvider;
   MachineLearningDataVisualizerProvider;
   MachineLearningJobManagementProvider;
   MachineLearningJobSourceSelectionProvider;
   MachineLearningJobTableProvider;
   MachineLearningJobTypeSelectionProvider;
   MachineLearningJobWizardAdvancedProvider;
   MachineLearningJobWizardCommonProvider;
   MachineLearningJobWizardMultiMetricProvider;
   MachineLearningJobWizardPopulationProvider;
   MachineLearningNavigationProvider;
   MachineLearningSettingsProvider;
   MachineLearningSingleMetricViewerProvider].

(** The name under which the returned object holds what a provider made;
    the common service is under no name. *)
Definition exported_as (p : Provider) : option string :=
  match p with
  | MachineLearningAnomalyExplorerProvider => Some "anomalyExplorer"
  | MachineLearningAPIProvider => Some "api"
  | MachineLearningCommonProvider => None
  | MachineLearningDataFrameAnalyticsProvider => Some "dataFrameAnalytics"
  | MachineLearningDataVisualizerProvider => Some "dataVisualizer"
  | MachineLearningJobManagementProvider => Some "jobManagement"
  | MachineLearningJobSourceSelectionProvider => Some "jobSourceSelection"
  | MachineLearningJobTableProvider => Some "jobTable"
  | MachineLearningJobTypeSelectionProvider => Some "jobTypeSelection"
  | MachineLearningJobWizardAdvancedProvider => Some "jobWizardAdvanced"
  | MachineLearningJobWizardCommonProvider => Some "jobWizardCommon"
  | MachineLearningJobWizardMultiMetricProvider => Some "jobWizardMultiMetric"
  | MachineLearningJobWizardPopulationProvider => Some "jobWizardPopulation"
  | MachineLearningNavigationProvider => Some "navigation"
  | MachineLearningSettingsProvider => Some "settings"
  | MachineLearningSingleMetricViewerProvider => Some "singleMetricViewer"
  end.

(** The properties of an object, [[]] for another value. *)
Definition props_of (v : JsVal) : list (string * JsVal) :=
  match v with
  | JObj props => props
  | _ => []
  end.

(** What a provider gave back in a list of calls: the answer of its first
    call. *)
Fixpoint made_by (p : Provider) (calls : list (Construction * result JsVal))
    : option (result JsVal) :=
  match calls with
  | [] => None
  | (c, r) :: rest =>
      if decide (provider c = p) then Some r else made_by p rest
  end.

(** The value a provider made, when it made one. *)
Definition made_value (made : option (result JsVal)) : option JsVal :=
  match made with
  | Some (Ok v) => Some v
  | _ => None
  end.

(** The property of the returned object for a provider: its name and what
    the provider made. *)
Definition export (calls : list (Construction * result JsVal)) (p : Provider)
    : option (string * JsVal) :=
  match exported_as p, made_value (made_by p calls) with
  | Some name, Some v => Some (name, v)
  | _, _ => None
  end.

(** The service a provider is given besides the context: the API service
    for job management, the common service for the advanced and the common
    job wizard. *)
Definition service_for (calls : list (Construction * result JsVal))
    (p : Provider) : option JsVal :=
  match p with
  | MachineLearningJobManagementProvider =>
      made_value (made_by MachineLearningAPIProvider calls)
  | MachineLearningJobWizardAdvancedProvider
  | MachineLearningJobWizardCommonProvider =>
      made_value (made_by MachineLearningCommonProvider calls)
  | _ => None
  end.

End Provider.

End MachineLearning.

(** * Sample collaborators

    Concrete stand-ins for the third-party functions and the collaborators,
    used to run the definitions on explicit inputs. *)

Module Samples.

Import AlertSelectors.

(** [s.split(sep)] on a one-character separator. *)
Fixpoint split_on (sep : ascii) (s : string) : list string :=
  match s with
  | EmptyString => [EmptyString]
  | String c rest =>
      match split_on sep rest with
      | first :: others =>
          if Ascii.eqb c sep then EmptyString :: first :: others
          else String c first :: others
      | [] => [String c EmptyString]
      end
  end.

(** A [key=value] pair, cut at the first [=]. *)
Fixpoint cut_eq (s : string) : string * string :=
  match s with
  | EmptyString => (EmptyString, EmptyString)
  | String c rest =>
      if Ascii.eqb c "="%char then (EmptyString, rest)
      else let '(k, v) := cut_eq rest in (String c k, v)
  end.

(** Adding one pair to a parsed query string: a key seen again collects its
    values in an array. *)
Definition add_pair (acc : gmap string QueryValue) (kv : string * string)
    : gmap string QueryValue :=
  let '(k, v) := kv in
  match acc !! k with
  | None => <[k := QStr v]> acc
  | Some (QStr v0) => <[k := QArr [v0; v]]> acc
  | Some (QArr vs) => <[k := QArr (vs ++ [v])]> acc
  end.

(** A query-string parser in the manner of [querystring.parse], without
    percent-decoding. *)
Definition sample_parse (s : string) : gmap string QueryValue :=
  match s with
  | EmptyString => ∅
  | _ => foldl add_pair ∅ (cut_eq <$> split_on "&"%char s)
  end.

(** Stand-ins for rison: [sample_encode] writes the one object the selectors
    encode, [sample_decode] reads a string back as a string value and
    rejects the empty string. *)
Definition sample_encode (v : JsVal) : string :=
  match v with
  | JObj [(k1, JStr v1); (k2, JStr v2)] =>
      "(" +:+ k1 +:+ ":" +:+ v1 +:+ "," +:+ k2 +:+ ":" +:+ v2 +:+ ")"
  | _ => "!n"
  end.

Definition sample_decode (s : string) : result JsVal :=
  match s with
  | EmptyString =>
      Thrown (Foreign "Error: rison decoder error: empty expression")
  | _ => Ok (JStr s)
  end.

Definition sample_state (path query : string) (page : Z)
    : @AlertListState nat nat string :=
  {| alerts := [7%nat; 8%nat];
     alertDetails := None;
     pageIndex := page;
     pageSize := 10;
     total := 2;
     location := Some {| pathname := path; search := query; hash := "" |};
     searchBar := {| patterns := ["events-*"] |} |}.

Import ExecuteJob.

Fixpoint value_of (name : string) (vals : list (string * string))
    : option string :=
  match vals with
  | [] => None
  | (k, v) :: rest => if String.eqb k name then Some v else value_of name rest
  end.

(** Filling the [{name}] placeholders of a message text; [name] is the
    placeholder being read, if any. *)
Fixpoint format_message (vals : list (string * string)) (name : option string)
    (text : string) : string :=
  match text with
  | EmptyString =>
      match name with
      | Some n => "{" +:+ n
      | None => EmptyString
      end
  | String c rest =>
      match name with
      | None =>
          if Ascii.eqb c "{"%char
          then format_message vals (Some EmptyString) rest
          else String c (format_message vals None rest)
      | Some n =>
          if Ascii.eqb c "}"%char
          then match value_of n vals with
               | Some v => v
               | None => "{" +:+ n +:+ "}"
               end +:+ format_message vals None rest
          else format_message vals (Some (n +:+ String c EmptyString)) rest
      end
  end.

(** [i18n.translate] with no translations loaded: the default message,
    filled in. *)
Definition sample_translate (m : Message) : string :=
  format_message (values m) None (defaultMessage m).

Definition sample_config (path : list string) : JsVal :=
  match path with
  | ["csv"; "useByteOrderMarkEncoding"] => JBool true
  | ["csv"; "checkForFormulas"] => JBool true
  | ["csv"; "maxSizeBytes"] => JNum 10485760
  | ["csv"; "scroll"] => JObj [("duration", JStr "30s"); ("size", JNum 500)]
  | ["encryptionKey"] => JStr "0123456789abcdef0123456789abcdef"
  | _ => JUndefined
  end.

Definition sample_setting (key : string) : JsVal :=
  match key with
  | "csv:separator" => JStr ","
  | "csv:quoteValues" => JBool true
  | "dateFormat:tz" => JStr "Browser"
  | _ => JUndefined
  end.

(** Collaborators that count the calls they answer (the state is that
    count). Only the text ["sealed"] decrypts; the token is a number. *)
Definition sample_respond (c : @Call nat) (calls : nat)
    : result (Resp c) * nat :=
  match c return result (Resp c) * nat with
  | GetConfig => (Ok (JRef 1), S calls)
  | ConfigGet _ path => (Ok (sample_config path), S calls)
  | KbnConfigGet _ _ => (Ok (JStr "/kbn"), S calls)
  | CryptoFactory _ => (Ok (JRef 2), S calls)
  | GetElasticsearchService => (Ok (JRef 3), S calls)
  | CryptoDecrypt _ encrypted =>
      if String.eqb encrypted "sealed"
      then (Ok (JObj [("authorization", JStr "Basic dTpw")]), S calls)
      else (Thrown (Foreign "Error: Unsupported state or unable to authenticate"),
            S calls)
  | KibanaRequestFrom _ => (Ok (JRef 4), S calls)
  | AsScoped _ _ => (Ok (JRef 5), S calls)
  | GetSavedObjectsClient _ => (Ok (JRef 6), S calls)
  | GetUiSettingsServiceFactory _ => (Ok (JRef 7), S calls)
  | FieldFormatServiceFactory _ => (Ok (JRef 8), S calls)
  | FieldFormatMapFactory _ _ => (Ok (JRef 9), S calls)
  | ClientGet _ key => (Ok (sample_setting key), S calls)
  | CreateGenerateCsv _ => (Ok (JRef 10), S calls)
  | GenerateCsv _ _ =>
      (Ok {| gen_content := "a,b";
             gen_maxSizeReached := JBool false;
             gen_size := JNum 3;
             gen_csvContainsFormulas := JBool false |}, S calls)
  end.

Definition sample_job (h : JsVal) : JobDocPayloadDiscoverCsv :=
  {| searchRequest := JObj [("index", JStr "logs-*")];
     fields := JArr [JStr "a"; JStr "b"];
     indexPatternSavedObject := JObj [("title", JStr "logs-*")];
     metaFields := JArr [JStr "_id"];
     conflictedTypesFields := JArr [];
     headers := h;
     basePath := JUndefined |}.

Definition sample_closure : Closure :=
  {| config := JRef 1;
     crypto := JRef 2;
     logger := Clone ParentLogger ["csv"; "execute-job"];
     serverBasePath := JStr "/kbn" |}.

(** Three payload objects: one with headers that decrypt, one with headers
    that do not, one without headers. *)
Definition sample_start : @State nat nat :=
  {| world := 0%nat;
     jobs := {[ 1%nat := sample_job (JStr "sealed");
                2%nat := sample_job (JStr "garbled");
                3%nat := sample_job JUndefined ]};
     trace := [] |}.

(** The sample collaborators leave alone what they are handed, return a
    promise from every call that can fail, and reject in the order of the
    array. *)
Definition sample_touch (c : @Call nat) (calls : nat) (field : Field)
    (v : JsVal) : JsVal := v.

Definition sample_at_once (c : @Call nat) (calls : nat) : bool := false.

Definition sample_earliest (calls : nat) : nat := 0.

(** [executeJob] on the sample collaborators, with byte order mark ["#"]. *)
Definition sample_run (job : nat) (token : nat)
    : result JobResult * @State nat nat :=
  executeJob sample_respond sample_touch sample_at_once sample_earliest
    sample_translate "#" sample_closure "job-1" job token sample_start.

(** What the sample run on the first job returns. *)
Definition sample_result : JobResult :=
  {| content_type := "text/csv";
     content := "#a,b";
     max_size_reached := JBool false;
     size := JNum 3;
     csv_contains_formulas := JBool false |}.

End Samples.

(** * Further samples *)

Module MoreSamples.

Import AlertSelectors.

(** A stand-in for rison's [decode] that reads back what [sample_encode]
    writes for the default date range. *)
Definition range_decode (s : string) : result JsVal :=
  if String.eqb s "(from:now-24h,to:now)"
  then Ok (JObj [("from", JStr "now-24h"); ("to", JStr "now")])
  else Samples.sample_decode s.

(** A state without a location. *)
Definition nowhere : @AlertListState nat nat string :=
  {| alerts := [];
     alertDetails := None;
     pageIndex := 0;
     pageSize := 10;
     total := 0;
     location := None;
     searchBar := {| patterns := [] |} |}.

Import ExecuteJob.



(** A [generateCsv] that writes the scroll duration into the search request
    it is given; nothing else is changed. *)
Definition meddling_touch (c : @Call nat) (calls : nat) (field : Field)
    (v : JsVal) : JsVal :=
  match c, field, v with
  | GenerateCsv _ _, SearchRequest, JObj entries =>
      JObj (entries ++ [("scroll", JStr "30s")])
  | _, _, _ => v
  end.

(** A ui settings client whose read of 'csv:quoteValues' fails, and throws
    instead of returning a promise. *)
Definition hasty_respond (c : @Call nat) (calls : nat)
    : result (Resp c) * nat :=
  match c return result (Resp c) * nat with
  | ClientGet _ "csv:quoteValues" =>
      (Thrown (Foreign "Error: Saved object client unavailable"), S calls)
  | c' => Samples.sample_respond c' calls
  end.

Definition hasty_at_once (c : @Call nat) (calls : nat) : bool :=
  match c with
  | ClientGet _ "csv:quoteValues" => true
  | _ => false
  end.

(** The sample collaborators with a [crypto.decrypt] that takes any text. *)
Definition willing_respond (c : @Call nat) (calls : nat)
    : result (Resp c) * nat :=
  match c return result (Resp c) * nat with
  | CryptoDecrypt _ _ =>
      (Ok (JObj [("authorization", JStr "Basic dTpw")]), S calls)
  | c' => Samples.sample_respond c' calls
  end.

(** Collaborators that answer each call with the number of calls made
    before it. *)
Definition counting_respond (c : @Call nat) (calls : nat)
    : result (Resp c) * nat :=
  match c return result (Resp c) * nat with
  | GenerateCsv _ _ =>
      (Ok {| gen_content := "";
             gen_maxSizeReached := JBool false;
             gen_size := JNum (Z.of_nat calls);
             gen_csvContainsFormulas := JBool false |}, S calls)
  | CryptoDecrypt _ _ => (Ok (JNum (Z.of_nat calls)), S calls)
  | _ => (Ok (JNum (Z.of_nat calls)), S calls)
  end.

(** Runs of [executeJob] on the sample jobs among these collaborators. *)
Definition willing_run (job : nat) (token : nat)
    : result JobResult * @State nat nat :=
  executeJob willing_respond Samples.sample_touch Samples.sample_at_once
    Samples.sample_earliest Samples.sample_translate "#"
    Samples.sample_closure "job-1" job token Samples.sample_start.

Definition counting_run (job : nat) (token : nat)
    : result JobResult * @State nat nat :=
  executeJob counting_respond Samples.sample_touch Samples.sample_at_once
    Samples.sample_earliest Samples.sample_translate "#"
    Samples.sample_closure "job-1" job token Samples.sample_start.



Definition meddling_run (job : nat) (token : nat)
    : result JobResult * @State nat nat :=
  executeJob Samples.sample_respond meddling_touch Samples.sample_at_once
    Samples.sample_earliest Samples.sample_translate "#"
    Samples.sample_closure "job-1" job token Samples.sample_start.

Definition hasty_run (job : nat) (token : nat)
    : result JobResult * @State nat nat :=
  executeJob hasty_respond Samples.sample_touch hasty_at_once
    Samples.sample_earliest Samples.sample_translate "#"
    Samples.sample_closure "job-1" job token Samples.sample_start.

Import MachineLearning.

(** Providers that number what they make; the one named [broken], if any,
    throws. *)
Definition numbering (broken : option Provider) (c : Construction)
    (made : nat) : result JsVal * nat :=
  if decide (broken = Some (provider c))
  then (Thrown (Foreign "Error: service unavailable"), made)
  else (Ok (JRef made), S made).

End MoreSamples.

(** * Facts about the alert-list selectors *)

Module AlertFacts.

Import AlertSelectors.

Section Memo.

Context {A R : Type}.
Variable same_ref : A -> A -> bool.
Variable func : A -> result R.

(** [===] holds only between equal arguments. *)
Hypothesis same_ref_eq : forall a b, same_ref a b = true -> a = b.

Lemma recompute_transparent (cell : MemoCell A R) (args : A) :
  cell_ok func cell ->
  fst (recompute func cell args) = func args /\
  cell_ok func (snd (recompute func cell args)).
Proof.
  intros Hok. unfold recompute.
  destruct (func args) as [r|e] eqn:Hf; simpl; split; auto.
  intros prev r' Hprev Hres. simpl in *. congruence.
Qed.

(** The cache of a selector is never seen in what the selector returns: a
    memoized call gives what the result function gives, and keeps the cell
    sound. *)
Lemma defaultMemoize_transparent (cell : MemoCell A R) (args : A) :
  cell_ok func cell ->
  fst (defaultMemoize same_ref func cell args) = func args /\
  cell_ok func (snd (defaultMemoize same_ref func cell args)).
Proof.
  intros Hok. unfold defaultMemoize.
  destruct (lastArgs cell) as [prev|] eqn:Hprev;
    [destruct (lastResult cell) as [r|] eqn:Hres|];
    try (apply recompute_transparent; assumption).
  destruct (same_ref prev args) eqn:Hsame;
    [|apply recompute_transparent; assumption].
  apply same_ref_eq in Hsame. subst args. simpl. split.
  - symmetry. apply Hok; assumption.
  - intros prev' r' Hp Hr. simpl in *.
    inversion Hp; inversion Hr; subst. apply Hok; assumption.
Qed.

End Memo.

Section SelectorFacts.

Context {AlertData AlertDetails IndexPattern : Type}.
Variable parse : string -> gmap string QueryValue.
Variable encode : JsVal -> string.
Variable decode : string -> result JsVal.

Abbreviation AlertState :=
  (@AlertListState AlertData AlertDetails IndexPattern).

Lemma pick_key_lookup query data key k :
  pick_key query data key !! k =
    if decide (k = key)
    then match picked query key with
         | Some x => Some x
         | None => data !! k
         end
    else data !! k.
Proof.
  unfold pick_key, picked.
  destruct (decide (k = key)) as [->|Hne].
  - destruct (query !! key) as [[v|vs]|];
      rewrite ?lookup_insert_eq; reflexivity.
  - destruct (query !! key) as [[v|vs]|];
      rewrite ?lookup_insert_ne by congruence; reflexivity.
Qed.

Lemma foldl_pick_key_lookup query ks : forall data k,
  foldl (pick_key query) data ks !! k =
    if decide (k ∈ ks)
    then match picked query k with
         | Some x => Some x
         | None => data !! k
         end
    else data !! k.
Proof.
  induction ks as [|key ks IH]; intros data k.
  - reflexivity.
  - change (foldl (pick_key query) data (key :: ks))
      with (foldl (pick_key query) (pick_key query data key) ks).
    rewrite IH, pick_key_lookup.
    destruct (decide (k = key)) as [->|Hne].
    + rewrite (decide_True (P := key ∈ key :: ks)) by (left; reflexivity).
      destruct (decide (key ∈ ks)); destruct (picked query key); auto.
    + destruct (decide (k ∈ ks)) as [Hin|Hnin].
      * rewrite decide_True by (right; assumption). reflexivity.
      * rewrite decide_False; auto.
        intros Hin. apply elem_of_cons in Hin as [?|?]; contradiction.
Qed.

(** [uiQueryParams] on a state with a location, key by key. *)
Lemma uiQueryParams_lookup (state : AlertState) loc k :
  location state = Some loc ->
  uiQueryParams parse state !! k =
    if decide (k ∈ keys) then picked (parse (slice1 (search loc))) k
    else None.
Proof.
  intros Hloc. unfold uiQueryParams, createSelector, uiQueryParams_of.
  rewrite Hloc. cbv zeta. rewrite foldl_pick_key_lookup.
  rewrite lookup_empty.
  destruct (decide (k ∈ keys)); auto.
  destruct (picked _ k); auto.
Qed.

Lemma uiQueryParams_no_location (state : AlertState) :
  location state = None -> uiQueryParams parse state = ∅.
Proof.
  intros Hloc. unfold uiQueryParams, createSelector. rewrite Hloc.
  reflexivity.
Qed.

(** C8: [isOnAlertPage] is true exactly when the state has a location whose
    pathname is ['/alerts']; without a location it is false. It is a total
    function, so it returns on every state. *)
Theorem isOnAlertPage_iff (state : AlertState) :
  (isOnAlertPage state = true <->
     exists loc, location state = Some loc /\ pathname loc = "/alerts") /\
  (location state = None -> isOnAlertPage state = false).
Proof.
  unfold isOnAlertPage. split.
  - destruct (location state) as [loc|]; split.
    + intros H. exists loc. split; auto. apply String.eqb_eq; assumption.
    + intros (loc' & Heq & Hpath). inversion Heq; subst.
      apply String.eqb_eq; assumption.
    + discriminate.
    + intros (loc' & Heq & _). discriminate.
  - intros ->. reflexivity.
Qed.

(** C4: the selectors built on the location read nothing else of the state:
    two states with equal locations give equal results for [uiQueryParams],
    [searchBarQuery], [encodedSearchBarDateRange], [searchBarDateRange],
    [searchBarFilters], [apiQueryParams] and [hasSelectedAlert], a thrown
    rison error included. *)
Theorem selectors_depend_on_location_only (s1 s2 : AlertState) :
  location s1 = location s2 ->
  uiQueryParams parse s1 = uiQueryParams parse s2 /\
  searchBarQuery parse decode s1 = searchBarQuery parse decode s2 /\
  encodedSearchBarDateRange parse encode s1 =
    encodedSearchBarDateRange parse encode s2 /\
  searchBarDateRange parse encode decode s1 =
    searchBarDateRange parse encode decode s2 /\
  searchBarFilters parse decode s1 = searchBarFilters parse decode s2 /\
  apiQueryParams parse encode s1 = apiQueryParams parse encode s2 /\
  hasSelectedAlert parse s1 = hasSelectedAlert parse s2.
Proof.
  intros Hloc.
  assert (Hui : uiQueryParams parse s1 = uiQueryParams parse s2).
  { unfold uiQueryParams, createSelector. rewrite Hloc. reflexivity. }
  assert (Henc : encodedSearchBarDateRange parse encode s1 =
                 encodedSearchBarDateRange parse encode s2).
  { unfold encodedSearchBarDateRange, createSelector. rewrite Hui.
    reflexivity. }
  unfold searchBarQuery, searchBarDateRange, searchBarFilters,
    apiQueryParams, hasSelectedAlert, createSelector, createSelector2.
  rewrite Hui, Henc. repeat split; reflexivity.
Qed.

(** C9: on a state with a location, [uiQueryParams] holds at most the six
    keys of [keys]; under such a key it holds the value of the query string
    when there is one value and the last one when there are several; a key
    the query string lacks is absent. *)
Theorem uiQueryParams_keys (state : AlertState) (loc : Location) :
  location state = Some loc ->
  let query := parse (slice1 (search loc)) in
  (forall k, is_Some (uiQueryParams parse state !! k) -> k ∈ keys) /\
  (forall k value, k ∈ keys -> query !! k = Some (QStr value) ->
     uiQueryParams parse state !! k = Some (Some value)) /\
  (forall k value, k ∈ keys -> query !! k = Some (QArr value) ->
     uiQueryParams parse state !! k = Some (last value)) /\
  (forall k, query !! k = None -> uiQueryParams parse state !! k = None).
Proof.
  intros Hloc query. repeat split.
  - intros k [x Hx]. rewrite (uiQueryParams_lookup _ _ _ Hloc) in Hx.
    destruct (decide (k ∈ keys)); [assumption|discriminate].
  - intros k value Hin Hq. rewrite (uiQueryParams_lookup _ _ _ Hloc).
    rewrite decide_True by assumption. unfold picked.
    fold query. rewrite Hq. reflexivity.
  - intros k value Hin Hq. rewrite (uiQueryParams_lookup _ _ _ Hloc).
    rewrite decide_True by assumption. unfold picked.
    fold query. rewrite Hq. reflexivity.
  - intros k Hq. rewrite (uiQueryParams_lookup _ _ _ Hloc).
    destruct (decide (k ∈ keys)); [|reflexivity].
    unfold picked. fold query. rewrite Hq. reflexivity.
Qed.

(** C10: the object [apiQueryParams] returns always holds a string under
    [date_range]: the rison encoding of [{ from: 'now-24h', to: 'now' }]
    when the query string has no [date_range] (or the state no location),
    the value of the query string otherwise (the last one of several); and
    it has no [selected_alert] property. *)
Theorem apiQueryParams_date_range (state : AlertState) :
  let default :=
    encode (JObj [("from", JStr "now-24h"); ("to", JStr "now")]) in
  apiQueryParams parse encode state !! "date_range" =
    Some (Some (encodedSearchBarDateRange parse encode state)) /\
  (location state = None ->
     encodedSearchBarDateRange parse encode state = default) /\
  (forall loc, location state = Some loc ->
     match parse (slice1 (search loc)) !! "date_range" with
     | None => encodedSearchBarDateRange parse encode state = default
     | Some (QStr value) =>
         encodedSearchBarDateRange parse encode state = value
     | Some (QArr value) =>
         encodedSearchBarDateRange parse encode state =
           default_last default value
     end) /\
  apiQueryParams parse encode state !! "selected_alert" = None.
Proof.
  intros default. split; [reflexivity|]. split; [|split; [|reflexivity]].
  - intros Hloc. unfold encodedSearchBarDateRange, createSelector.
    rewrite (uiQueryParams_no_location _ Hloc). reflexivity.
  - intros loc Hloc. unfold encodedSearchBarDateRange, createSelector, prop.
    rewrite (uiQueryParams_lookup _ _ _ Hloc).
    rewrite decide_True by (apply list_elem_of_In; simpl; tauto).
    unfold picked.
    destruct (parse (slice1 (search loc)) !! "date_range") as [[v|vs]|];
      reflexivity.
Qed.

End SelectorFacts.

(** C4 on two states that differ in everything but the location. *)
Lemma selectors_depend_on_location_only_witness :
  let s1 := Samples.sample_state "/alerts" "?query=x&selected_alert=7" 0 in
  let s2 : @AlertListState nat nat string :=
    {| alerts := []; alertDetails := Some 3%nat; pageIndex := 4;
       pageSize := 50; total := 0; location := location s1;
       searchBar := {| patterns := [] |} |} in
  location s1 = location s2 /\
  uiQueryParams Samples.sample_parse s1 =
    uiQueryParams Samples.sample_parse s2 /\
  apiQueryParams Samples.sample_parse Samples.sample_encode s1 =
    apiQueryParams Samples.sample_parse Samples.sample_encode s2 /\
  hasSelectedAlert Samples.sample_parse s1 =
    hasSelectedAlert Samples.sample_parse s2.
Proof.
  intros s1 s2. split; [reflexivity|].
  destruct (selectors_depend_on_location_only Samples.sample_parse
              Samples.sample_encode Samples.sample_decode s1 s2 eq_refl)
    as (H1 & _ & _ & _ & _ & H6 & H7).
  auto.
Defined.

(** C9 on the query string [?query=x&page_size=5&foo=1&query=y]. *)
Lemma uiQueryParams_keys_witness :
  let state :=
    Samples.sample_state "/alerts" "?query=x&page_size=5&foo=1&query=y" 0 in
  uiQueryParams Samples.sample_parse state !! "query" = Some (Some "y") /\
  uiQueryParams Samples.sample_parse state !! "page_size" = Some (Some "5") /\
  uiQueryParams Samples.sample_parse state !! "date_range" = None /\
  ~ is_Some (uiQueryParams Samples.sample_parse state !! "foo").
Proof.
  intros state.
  destruct (uiQueryParams_keys Samples.sample_parse state
              {| pathname := "/alerts";
                 search := "?query=x&page_size=5&foo=1&query=y";
                 hash := "" |} eq_refl)
    as (Hkeys & Hone & Hlast & Hnone).
  split; [|split; [|split]].
  - apply (Hlast "query" ["x"; "y"]); [apply list_elem_of_In; simpl; tauto|].
    vm_compute. reflexivity.
  - apply (Hone "page_size" "5"); [apply list_elem_of_In; simpl; tauto|].
    vm_compute. reflexivity.
  - apply Hnone. vm_compute. reflexivity.
  - intros Hfoo. apply Hkeys in Hfoo. apply list_elem_of_In in Hfoo.
    simpl in Hfoo. intuition discriminate.
Defined.

End AlertFacts.

(** * Facts about the job executor *)

Module ExecuteJobFacts.

Import ExecuteJob ExecuteJobTrace.

Section ExecutorFacts.

Context {Token World : Type}.
Variable respond : forall c : @Call Token, World -> result (Resp c) * World.
Variable touch : @Call Token -> World -> Field -> JsVal -> JsVal.
Variable at_once : @Call Token -> World -> bool.
Variable earliest : World -> nat.
Variable translate : Message -> string.
Variable CSV_BOM_CHARS : string.

Abbreviation recorded := (@State Token World).
Abbreviation run :=
  (executeJob respond touch at_once earliest translate CSV_BOM_CHARS).

(** ** Going through a run *)

Ltac unfold_run :=
  unfold executeJob, decryptHeaders, getFormatsMap, getUiSettings,
    Promise_all2, Promise_all3, settle2, settle3, first_rejection,
    rejections, async, await, start, unawaited, with_trace, to_string, bind,
    try_catch, call, call_handing, read_job, logger_error, logger_warn, emit,
    ret, throw.

(** Case analysis on what decides the next step of the run in the goal: the
    answer to a call, whether a failing call throws at once, the string of
    an error, the time zone, the rejection that comes first. *)
Ltac next_answer :=
  match goal with
  | |- context [respond ?c ?w] =>
      destruct (respond c w) as [[?|?] ?] eqn:?; simpl
  | |- context [at_once ?c ?w] =>
      destruct (at_once c w) eqn:?; simpl
  | |- context [toString ?e] =>
      destruct (toString e) eqn:?; simpl
  | |- context [strict_eq_str ?v ?t] =>
      destruct (strict_eq_str v t) eqn:?; simpl
  | |- context [earliest ?w] =>
      destruct (earliest w) as [|[|[|[|?]]]]; simpl
  end.

(** The answers of a run whose calls all returned, read off the context. *)
Ltac answers_of_run :=
  match goal with
  | Hes : respond GetElasticsearchService _ = (Ok ?es, _),
    Hd : respond (CryptoDecrypt _ _) _ = (Ok ?d, _),
    Hfr : respond (KibanaRequestFrom _) _ = (Ok ?fr, _),
    Hcau : respond (AsScoped _ _) _ = (Ok ?cau, _),
    Hsoc : respond (GetSavedObjectsClient _) _ = (Ok ?soc, _),
    Huic : respond (GetUiSettingsServiceFactory _) _ = (Ok ?uic, _),
    Hff : respond (FieldFormatServiceFactory _) _ = (Ok ?ff, _),
    Hfm : respond (FieldFormatMapFactory _ _) _ = (Ok ?fm, _),
    Hsep : respond (ClientGet _ "csv:separator") _ = (Ok ?sep, _),
    Hqv : respond (ClientGet _ "csv:quoteValues") _ = (Ok ?qv, _),
    Htz : respond (ClientGet _ "dateFormat:tz") _ = (Ok ?tz, _),
    Hgen : respond (CreateGenerateCsv _) _ = (Ok ?gen, _),
    Hbom : respond (ConfigGet _ ["csv"; "useByteOrderMarkEncoding"]) _
           = (Ok ?bom, _),
    Hcff : respond (ConfigGet _ ["csv"; "checkForFormulas"]) _
           = (Ok ?cff, _),
    Hmsb : respond (ConfigGet _ ["csv"; "maxSizeBytes"]) _
           = (Ok ?msb, _),
    Hscr : respond (ConfigGet _ ["csv"; "scroll"]) _ = (Ok ?scr, _),
    Hcsv : respond (GenerateCsv _ _) _ = (?answer, _) |- _ =>
      exists {| a_elasticsearch := es; a_decrypted := d;
                a_fakeRequest := fr; a_callAsCurrentUser := cau;
                a_savedObjectsClient := soc; a_uiSettingsClient := uic;
                a_fieldFormats := ff; a_formatsMap := fm;
                a_separator := sep; a_quoteValues := qv;
                a_timezone := tz; a_generateCsv := gen;
                a_useByteOrderMarkEncoding := bom;
                a_checkForFormulas := cff; a_maxSizeBytes := msb;
                a_scroll := scr;
                a_csv := match answer with
                         | Ok csv => csv
                         | Thrown _ =>
                             {| gen_content := "";
                                gen_maxSizeReached := JUndefined;
                                gen_size := JUndefined;
                                gen_csvContainsFormulas := JUndefined |}
                         end |}, answer
  end.

(** The two ways a run can go: it throws before [generateCsv] is called, or
    it makes the calls of a run that returns, and ends as [generateCsv]
    does. *)
Lemma executeJob_run_shape cl jobId job tok (s : recorded) :
  let out := run cl jobId job tok s in
  exists events,
    trace (snd out) = (trace s ++ events)%list /\
    ((List.filter (@is_generateCsv Token) (calls_of events) = [] /\
      exists e, fst out = Thrown e) \/
     (exists p encrypted a answer,
        jobs s !! job = Some p /\
        headers p = JStr encrypted /\
        events = attempt_events translate cl jobId p encrypted a tok answer /\
        match answer with
        | Ok csv => a_csv a = csv /\ fst out = Ok (result_of CSV_BOM_CHARS a)
        | Thrown e => fst out = Thrown e
        end)).
Proof.
  cbv zeta. unfold_run. simpl.
  next_answer.
  2: { eexists. split; [reflexivity|]. left. simpl. eauto. }
  destruct (jobs s !! job) as [p|] eqn:Hjob; simpl.
  2: { eexists. split; [reflexivity|]. left. simpl. eauto. }
  destruct (headers p) as [| | | |encrypted| | |] eqn:Hh; simpl.
  all: repeat next_answer.
  all: rewrite <- ?app_assoc; simpl.
  all: eexists; split; [reflexivity|].
  all: try (left; simpl; split; [reflexivity|eauto]; fail).
  all: right; exists p, encrypted.
  all: answers_of_run.
  all: unfold attempt_events, success_events, config_events, result_of,
         args_of, request_of; simpl.
  all: match goal with
       | H : strict_eq_str _ _ = _ |- _ => rewrite H
       end.
  all: simpl; repeat split; solve [reflexivity | assumption].
Qed.


Lemma attempt_events_ok cl jobId p encrypted a (tok : Token) :
  attempt_events translate cl jobId p encrypted a tok (Ok (a_csv a)) =
  success_events translate cl jobId p encrypted a tok.
Proof. reflexivity. Qed.

Lemma attempt_events_generateCsv cl jobId p encrypted a (tok : Token) answer :
  List.filter (@is_generateCsv Token)
    (calls_of (attempt_events translate cl jobId p encrypted a tok answer)) =
  [GenerateCsv (a_generateCsv a) (args_of p a tok)].
Proof.
  unfold attempt_events, success_events, config_events, calls_of.
  destruct (strict_eq_str (a_timezone a) "Browser"); reflexivity.
Qed.

(** ** Runs that return *)

(** A run that returns went through every step: its events, its result and
    the answers they were made from. *)
Lemma executeJob_success_inv cl jobId job tok (s : recorded) r s' :
  run cl jobId job tok s = (Ok r, s') ->
  exists p encrypted a,
    jobs s !! job = Some p /\
    headers p = JStr encrypted /\
    trace s' =
      (trace s ++ success_events translate cl jobId p encrypted a tok)%list /\
    r = result_of CSV_BOM_CHARS a.
Proof.
  intros H.
  destruct (executeJob_run_shape cl jobId job tok s)
    as (events & Htr & [[_ [e He]]|(p & encrypted & a & answer & Hjob & Hh
                                    & Hev & Hend)]);
    rewrite H in *; simpl in *.
  - discriminate.
  - destruct answer as [csv|e]; [|discriminate].
    destruct Hend as [Hcsv Hres]. subst csv events.
    rewrite attempt_events_ok in Htr.
    exists p, encrypted, a. inversion Hres. auto.
Qed.

Lemma success_events_generateCsv cl jobId p encrypted a (tok : Token) :
  List.filter (@is_generateCsv Token)
    (calls_of (success_events translate cl jobId p encrypted a tok)) =
  [GenerateCsv (a_generateCsv a) (args_of p a tok)].
Proof.
  unfold success_events, config_events, calls_of.
  destruct (strict_eq_str (a_timezone a) "Browser"); reflexivity.
Qed.

Lemma success_events_count_all cl jobId p encrypted a (tok : Token) :
  count_all (success_events translate cl jobId p encrypted a tok) = 2.
Proof.
  unfold success_events, config_events, count_all.
  destruct (strict_eq_str (a_timezone a) "Browser"); reflexivity.
Qed.

Lemma success_events_alls cl jobId p encrypted a (tok : Token) :
  alls (success_events translate cl jobId p encrypted a tok) =
  [(0, 2); (1, 3)]%nat.
Proof.
  unfold success_events, config_events, alls.
  destruct (strict_eq_str (a_timezone a) "Browser"); reflexivity.
Qed.

(** C2: a run of [executeJob] that returns has made, in this order, the
    calls of [success_events]: it decrypted the headers of the job, built
    the synthetic request from what came out, fetched the formats map and
    the ui settings, and then called [generateCsv], once, with the job's
    searchRequest, fields, metaFields and conflictedTypesFields; the content
    it returns is the byte order mark (CSV_BOM_CHARS when the configuration
    value csv.useByteOrderMarkEncoding is truthy, the empty string
    otherwise) followed by the content [generateCsv] returned, and
    maxSizeReached, size and csvContainsFormulas are the ones
    [generateCsv] returned. *)
Theorem executeJob_success cl jobId job tok (s : recorded) r s' :
  executeJob respond touch at_once earliest translate CSV_BOM_CHARS cl jobId
    job tok s = (Ok r, s') ->
  exists p encrypted a,
    jobs s !! job = Some p /\
    headers p = JStr encrypted /\
    trace s' =
      (trace s ++ success_events translate cl jobId p encrypted a tok)%list /\
    List.filter (@is_generateCsv Token)
      (calls_of (success_events translate cl jobId p encrypted a tok)) =
      [GenerateCsv (a_generateCsv a) (args_of p a tok)] /\
    arg_searchRequest (args_of p a tok) = searchRequest p /\
    arg_fields (args_of p a tok) = fields p /\
    arg_metaFields (args_of p a tok) = metaFields p /\
    arg_conflictedTypesFields (args_of p a tok) = conflictedTypesFields p /\
    content r =
      (if truthy (a_useByteOrderMarkEncoding a) then CSV_BOM_CHARS else "")
      +:+ gen_content (a_csv a) /\
    max_size_reached r = gen_maxSizeReached (a_csv a) /\
    size r = gen_size (a_csv a) /\
    csv_contains_formulas r = gen_csvContainsFormulas (a_csv a).
Proof.
  intros H.
  destruct (executeJob_success_inv _ _ _ _ _ _ _ H)
    as (p & encrypted & a & Hjob & Hh & Htr & Hr).
  exists p, encrypted, a. subst r.
  repeat split; auto using success_events_generateCsv.
Qed.

(** C5: the result of a run that returns has content type ['text/csv']. *)
Theorem executeJob_content_type cl jobId job tok (s : recorded) r s' :
  executeJob respond touch at_once earliest translate CSV_BOM_CHARS cl jobId
    job tok s = (Ok r, s') ->
  content_type r = "text/csv".
Proof.
  intros H.
  destruct (executeJob_success_inv _ _ _ _ _ _ _ H)
    as (p & encrypted & a & _ & _ & _ & Hr).
  subst r. reflexivity.
Qed.

(** With collaborators that answer every call, a run on a job whose headers
    are a string returns, with the events of [success_events]. *)
Lemma executeJob_returns cl jobId job tok (s : recorded) p encrypted :
  all_answer respond ->
  jobs s !! job = Some p ->
  headers p = JStr encrypted ->
  exists a,
    fst (run cl jobId job tok s) = Ok (result_of CSV_BOM_CHARS a) /\
    trace (snd (run cl jobId job tok s)) =
      (trace s ++ success_events translate cl jobId p encrypted a tok)%list.
Proof.
  intros Hall Hjob Hh.
  destruct (executeJob_run_shape cl jobId job tok s)
    as (events & Htr & Hcases).
  revert Htr Hcases. cbv zeta. unfold_run. simpl.
  destruct (Hall GetElasticsearchService (world s)) as (es & w0 & ->). simpl.
  rewrite Hjob. simpl. rewrite Hh. simpl.
  repeat match goal with
         | |- context [respond ?c ?w] =>
             let x := fresh "x" in
             let w' := fresh "w" in
             let E := fresh "E" in
             destruct (Hall c w) as (x & w' & E); rewrite E; simpl
         | |- context [strict_eq_str ?v ?t] =>
             destruct (strict_eq_str v t) eqn:?; simpl
         end.
  all: intros Htr [[_ [e He]]|(p' & encrypted' & a & answer & Hjob' & Hh'
                               & Hev & Hend)]; [discriminate|].
  all: destruct answer as [csv|e]; [|discriminate].
  all: destruct Hend as [Hcsv Hres]; subst csv.
  all: assert (p' = p) by congruence; subst p'.
  all: assert (encrypted' = encrypted) by congruence; subst encrypted'.
  all: exists a; split; [exact Hres|].
  all: rewrite Htr, Hev; reflexivity.
Qed.

(** ** Headers that cannot be decrypted *)

Lemma decryptHeaders_failure cl h (s0 : recorded) :
  cannot_decrypt respond cl h ->
  exists err,
    underlying_error translate h err /\
    fst (decryptHeaders respond translate cl h s0) = Thrown (thrown_for translate err) /\
    trace (snd (decryptHeaders respond translate cl h s0)) =
      (trace s0 ++ decrypt_attempt cl h err
                ++ [EvLogError (logger cl) err])%list.
Proof.
  intros Hno. unfold_run. unfold thrown_for.
  destruct h as [| | | |encrypted| | |]; simpl in *.
  all: try (eexists; split; [reflexivity|];
            destruct (toString _); simpl; split; reflexivity).
  destruct (Hno (world s0)) as (err & w' & Hcall).
  rewrite Hcall. simpl. exists err. rewrite <- app_assoc.
  destruct (toString err); simpl; repeat split; reflexivity.
Qed.


(** ** Every run *)

Lemma tokens_in_generateCsv (events : list (@Event Token)) :
  tokens_in events =
  concat (List.map tokens_of
            (List.filter (@is_generateCsv Token) (calls_of events))).
Proof.
  unfold tokens_in. induction (calls_of events) as [|c calls IH]; simpl.
  - reflexivity.
  - destruct c; simpl; rewrite IH; reflexivity.
Qed.

(** What any run adds to the events, whether it returns or throws: the
    [Promise.all] it has reached, and what is called inside them. *)
Lemma executeJob_events cl jobId job tok (s : recorded) :
  let out := run cl jobId job tok s in
  exists events,
    trace (snd out) = (trace s ++ events)%list /\
    (alls events = [] \/ alls events = [(0, 2)]%nat \/
     alls events = [(0, 2); (1, 3)]%nat) /\
    forallb (@is_configuration_read Token) (parallel_calls events) = true /\
    length (List.filter (@is_fieldFormatMapFactory Token)
              (parallel_calls events)) <= 1.
Proof.
  cbv zeta. unfold_run. simpl.
  next_answer.
  2: { eexists. split; [reflexivity|]. simpl. auto. }
  destruct (jobs s !! job) as [p|]; simpl.
  2: { eexists. split; [reflexivity|]. simpl. auto. }
  destruct (headers p); simpl.
  all: repeat next_answer.
  all: rewrite <- ?app_assoc; simpl.
  all: eexists; split; [reflexivity|]; simpl; auto 6.
Qed.

(** With collaborators that do not look at the token, two runs that differ
    in the token only go the same way. *)
Lemma executeJob_token_unread cl jobId job (t1 t2 : Token) (s : recorded) :
  token_blind respond ->
  let out1 := run cl jobId job t1 s in
  let out2 := run cl jobId job t2 s in
  exists events,
    trace (snd out1) = (trace s ++ events)%list /\
    trace (snd out2) =
      (trace s ++ List.map (event_with_token t2) events)%list /\
    fst out1 = fst out2 /\
    world (snd out1) = world (snd out2).
Proof.
  intros Hblind. cbv zeta. unfold_run. simpl.
  next_answer.
  2: { eexists. repeat split; reflexivity. }
  destruct (jobs s !! job) as [p|]; simpl.
  2: { eexists. repeat split; reflexivity. }
  destruct (headers p); simpl.
  all: repeat
    match goal with
    | |- context [respond (GenerateCsv ?g ?args) ?w] =>
        let Hb1 := fresh "Hb" in
        let Hb2 := fresh "Hb" in
        pose proof (Hblind g args t1 w) as Hb1;
        pose proof (Hblind g args t2 w) as Hb2;
        unfold with_token in Hb1, Hb2; simpl in Hb1, Hb2;
        try rewrite Hb2; try rewrite <- Hb1; clear Hb1 Hb2;
        match goal with
        | |- context [respond (GenerateCsv ?g' ?args') ?w'] =>
            destruct (respond (GenerateCsv g' args') w') as [[?|?] ?] eqn:?;
            simpl
        end
    | |- _ => next_answer
    end.
  all: rewrite <- ?app_assoc; simpl.
  all: eexists; split; [reflexivity|]; simpl; auto.
Qed.

(** C6, as the code has it: [executeJob] does nothing with the
    cancellation token but hand it on, and it hands it on only in a run that
    gets as far as [generateCsv]. A run either throws without having called
    [generateCsv], and then the token has reached no collaborator; or it
    calls [generateCsv] exactly once, with the token as the
    cancellationToken field of the argument, and the token reaches the
    collaborators there only. The second is the case in every run that
    returns, and a run returns on a job with string headers when every
    call is answered. When [generateCsv] itself does not look at the token,
    a run with another token makes the same calls with the same outcome. *)
Theorem executeJob_cancellationToken cl jobId job (tok : Token)
    (s : recorded) :
  let out :=
    executeJob respond touch at_once earliest translate CSV_BOM_CHARS cl jobId
      job tok s in
  (exists events,
     trace (snd out) = (trace s ++ events)%list /\
     ((List.filter (@is_generateCsv Token) (calls_of events) = [] /\
       tokens_in events = [] /\
       exists e, fst out = Thrown e) \/
      (exists g args,
         List.filter (@is_generateCsv Token) (calls_of events) =
           [GenerateCsv g args] /\
         arg_cancellationToken args = tok /\
         tokens_in events = [tok])) /\
     (forall r, fst out = Ok r ->
        exists g args,
          List.filter (@is_generateCsv Token) (calls_of events) =
            [GenerateCsv g args] /\
          arg_cancellationToken args = tok /\
          tokens_in events = [tok]) /\
     (all_answer respond ->
      forall p encrypted,
        jobs s !! job = Some p ->
        headers p = JStr encrypted ->
        exists r, fst out = Ok r)) /\
  (token_blind respond ->
   forall tok',
     let out' :=
       executeJob respond touch at_once earliest translate CSV_BOM_CHARS cl
         jobId job tok' s in
     exists events,
       trace (snd out) = (trace s ++ events)%list /\
       trace (snd out') =
         (trace s ++ List.map (event_with_token tok') events)%list /\
       fst out = fst out' /\
       world (snd out) = world (snd out')).
Proof.
  intros out. split.
  - destruct (executeJob_run_shape cl jobId job tok s)
      as (events & Htr & Hcases).
    fold out in Htr, Hcases. exists events. split; [assumption|].
    assert (Hcalled :
      forall p encrypted a answer,
        events = attempt_events translate cl jobId p encrypted a tok answer ->
        exists g args,
          List.filter (@is_generateCsv Token) (calls_of events) =
            [GenerateCsv g args] /\
          arg_cancellationToken args = tok /\
          tokens_in events = [tok]).
    { intros p encrypted a answer ->.
      exists (a_generateCsv a), (args_of p a tok).
      rewrite tokens_in_generateCsv, attempt_events_generateCsv.
      repeat split. }
    split; [|split].
    + destruct Hcases as [[Hnone Hthrown]|(p & encrypted & a & answer & _ & _
                                           & Hev & _)].
      * left. rewrite tokens_in_generateCsv, Hnone. auto.
      * right. eapply Hcalled, Hev.
    + intros r Hr.
      destruct Hcases as [[_ [e He]]|(p & encrypted & a & answer & _ & _
                                      & Hev & _)].
      * rewrite Hr in He. discriminate.
      * eapply Hcalled, Hev.
    + intros Hall p encrypted Hjob Hh.
      destruct (executeJob_returns cl jobId job tok s p encrypted Hall Hjob Hh)
        as (a & Hres & _).
      exists (result_of CSV_BOM_CHARS a). exact Hres.
  - intros Hblind tok' out'.
    apply executeJob_token_unread. assumption.
Qed.

(** C7, as the code has it: [executeJob] awaits in parallel in two places,
    one nested in the other: the [Promise.all] over getFormatsMap and
    getUiSettings and, inside getUiSettings, the [Promise.all] over the
    three reads of 'csv:separator', 'csv:quoteValues' and 'dateFormat:tz'.
    A run reaches none of them, the outer one only, or both; every call
    made inside them is a read of configuration (the field formats and the
    ui settings), at most one of them a call of fieldFormatMapFactory, which
    alone among them is given an object of the payload; and a run that
    returns has reached both, with the events of [success_events]. *)
Theorem executeJob_parallel_awaits cl jobId job (tok : Token) (s : recorded) :
  let out :=
    executeJob respond touch at_once earliest translate CSV_BOM_CHARS cl jobId
      job tok s in
  exists events,
    trace (snd out) = (trace s ++ events)%list /\
    (alls events = [] \/ alls events = [(0, 2)]%nat \/
     alls events = [(0, 2); (1, 3)]%nat) /\
    forallb (@is_configuration_read Token) (parallel_calls events) = true /\
    length (List.filter (@is_fieldFormatMapFactory Token)
              (parallel_calls events)) <= 1 /\
    (forall r, fst out = Ok r ->
       alls events = [(0, 2); (1, 3)]%nat /\
       count_all events = 2%nat /\
       exists p encrypted a,
         events = success_events translate cl jobId p encrypted a tok).
Proof.
  intros out.
  destruct (executeJob_events cl jobId job tok s)
    as (events & Htr & Halls & Hreads & Hone).
  fold out in Htr. exists events. repeat split; try assumption.
  all: subst out.
  all: destruct (run cl jobId job tok s) as [res s'] eqn:Hrun.
  all: simpl in *; subst res.
  all: destruct (executeJob_success_inv _ _ _ _ _ _ _ Hrun)
      as (p & encrypted & a & _ & _ & Htr' & _).
  all: rewrite Htr in Htr'; apply app_inv_head in Htr'; subst events.
  - apply success_events_alls.
  - apply success_events_count_all.
  - exists p, encrypted, a. reflexivity.
Qed.

(** ** The payload *)

Lemma handed_over_nothing (m : gmap nat JobDocPayloadDiscoverCsv) job :
  m = alter (handed_over (fun _ v => v) (fun _ v => v)) job m.
Proof.
  symmetry. apply map_eq. intros i.
  destruct (decide (i = job)) as [->|Hne].
  - rewrite lookup_alter_eq. destruct (m !! job) as [[]|]; reflexivity.
  - rewrite lookup_alter_ne by congruence. reflexivity.
Qed.

Lemma handed_over_both (fm gen : Field -> JsVal -> JsVal)
    (m : gmap nat JobDocPayloadDiscoverCsv) job :
  alter (fun p => foldr (touch_field gen) p
                    [SearchRequest; Fields; MetaFields; ConflictedTypesFields])
    job
    (alter (fun p => foldr (touch_field fm) p [IndexPatternSavedObject])
       job m) =
  alter (handed_over fm gen) job m.
Proof.
  apply map_eq. intros i.
  destruct (decide (i = job)) as [->|Hne].
  - rewrite !lookup_alter_eq. destruct (m !! job) as [[]|]; reflexivity.
  - rewrite !lookup_alter_ne by congruence. reflexivity.
Qed.

Lemma done_by_hands_off calls f :
  hands_off touch -> done_by touch calls f -> forall field v, f field v = v.
Proof.
  intros Hoff [[_ ->]|(c & w & _ & ->)] field v; [reflexivity|apply Hoff].
Qed.

(** What a run does to the payload objects: the one it was given has gone
    through [fieldFormatMapFactory] and [generateCsv], as far as they were
    called. *)
Lemma executeJob_jobs cl jobId job tok (s : recorded) :
  let out := run cl jobId job tok s in
  exists events fm gen,
    trace (snd out) = (trace s ++ events)%list /\
    jobs (snd out) = alter (handed_over fm gen) job (jobs s) /\
    done_by touch
      (List.filter (@is_fieldFormatMapFactory Token) (calls_of events)) fm /\
    done_by touch
      (List.filter (@is_generateCsv Token) (calls_of events)) gen.
Proof.
  cbv zeta. unfold_run. simpl.
  next_answer.
  2: { eexists _, _, _. split; [reflexivity|].
       split; [apply handed_over_nothing|]. split; left; split; reflexivity. }
  destruct (jobs s !! job) as [p|]; simpl.
  2: { eexists _, _, _. split; [reflexivity|].
       split; [apply handed_over_nothing|]. split; left; split; reflexivity. }
  destruct (headers p); simpl.
  all: repeat next_answer.
  all: rewrite <- ?app_assoc; simpl.
  all: eexists.
  all: lazymatch goal with
       | H1 : respond (FieldFormatMapFactory ?i ?f) ?w1 = _,
         H2 : respond (GenerateCsv ?g ?args) ?w2 = _ |- _ =>
           exists (touch (FieldFormatMapFactory i f) w1),
                  (touch (GenerateCsv g args) w2)
       | H1 : respond (FieldFormatMapFactory ?i ?f) ?w1 = _ |- _ =>
           exists (touch (FieldFormatMapFactory i f) w1), (fun _ v => v)
       | |- _ => exists (fun _ v => v), (fun _ v => v)
       end.
  all: split; [reflexivity|].
  all: split;
    [first [ reflexivity
           | apply handed_over_nothing
           | apply (handed_over_both _ _ (jobs s) job) ]|].
  all: simpl; split;
    first [ left; split; reflexivity
          | right; eexists _, _; split; reflexivity ].
Qed.

(** C3, as the code has it: [executeJob] writes to no field of the payload,
    but it hands the objects in five of them on by reference, and what the
    collaborators do to these shows in the payload. After a run, whether it
    returns or throws, headers and basePath are as before, and so is every
    other payload object; indexPatternSavedObject is as
    [fieldFormatMapFactory] left it, and searchRequest, fields, metaFields
    and conflictedTypesFields are as [generateCsv] left them, each as before
    when that collaborator was not called. With collaborators that leave
    alone what they are handed, every field is as before. *)
Theorem executeJob_payload cl jobId job tok (s : recorded) :
  let out :=
    executeJob respond touch at_once earliest translate CSV_BOM_CHARS cl jobId
      job tok s in
  exists events fm gen,
    trace (snd out) = (trace s ++ events)%list /\
    jobs (snd out) = alter (handed_over fm gen) job (jobs s) /\
    done_by touch
      (List.filter (@is_fieldFormatMapFactory Token) (calls_of events)) fm /\
    done_by touch
      (List.filter (@is_generateCsv Token) (calls_of events)) gen /\
    (forall other, other <> job ->
       jobs (snd out) !! other = jobs s !! other) /\
    (forall p, jobs s !! job = Some p ->
       jobs (snd out) !! job = Some (handed_over fm gen p) /\
       headers (handed_over fm gen p) = headers p /\
       basePath (handed_over fm gen p) = basePath p) /\
    (hands_off touch -> jobs (snd out) = jobs s).
Proof.
  intros out.
  destruct (executeJob_jobs cl jobId job tok s)
    as (events & fm & gen & Htr & Hjobs & Hfm & Hgen).
  fold out in Htr, Hjobs. exists events, fm, gen.
  split; [assumption|]. split; [assumption|]. split; [assumption|].
  split; [assumption|]. split; [|split].
  - intros other Hne. rewrite Hjobs. apply lookup_alter_ne. congruence.
  - intros p Hp. rewrite Hjobs, lookup_alter_eq, Hp. repeat split.
  - intros Hoff. rewrite Hjobs. apply map_eq. intros i.
    destruct (decide (i = job)) as [->|Hne].
    + rewrite lookup_alter_eq.
      destruct (jobs s !! job) as [[]|]; [|reflexivity].
      unfold handed_over. simpl.
      rewrite !(done_by_hands_off _ _ Hoff Hfm),
        !(done_by_hands_off _ _ Hoff Hgen).
      reflexivity.
    + rewrite lookup_alter_ne by congruence. reflexivity.
Qed.

End ExecutorFacts.

(** ** The sample runs *)

Lemma sample_run_returns :
  Samples.sample_run 1 42 =
    (Ok Samples.sample_result, snd (Samples.sample_run 1 42)).
Proof. vm_compute. reflexivity. Defined.

Lemma sample_cannot_decrypt (h : JsVal) :
  h <> JStr "sealed" ->
  cannot_decrypt Samples.sample_respond Samples.sample_closure h.
Proof.
  intros Hne. destruct h as [| | | |encrypted| | |]; simpl; auto.
  intros w. unfold Samples.sample_respond.
  destruct (String.eqb encrypted "sealed") eqn:Heq.
  - apply String.eqb_eq in Heq. subst. contradiction.
  - eauto.
Defined.

Lemma sample_token_blind : token_blind Samples.sample_respond.
Proof. intros g args t w. reflexivity. Defined.

Lemma sample_hands_off : hands_off Samples.sample_touch.
Proof. intros c w field v. reflexivity. Defined.

Lemma willing_all_answer : all_answer MoreSamples.willing_respond.
Proof.
  intros c w. destruct c; simpl; eauto.
Defined.

(** The run on the sample job without headers: the error about missing
    headers is logged, and the user-facing error is thrown. *)
Example sample_run_missing_headers :
  (fst (Samples.sample_run 3 42),
   trace (snd (Samples.sample_run 3 42))) =
  (Thrown
     (NewError
        ("Failed to decrypt report job data. Please ensure that "
         +:+ "xpack.reporting.encryptionKey is set and re-generate this "
         +:+ "report. Error: Job headers are missing")),
   [EvCall GetElasticsearchService (Ok (JRef 3));
    EvLogError (Clone ParentLogger ["csv"; "execute-job"])
      (NewError "Job headers are missing")]).
Proof. vm_compute. reflexivity. Qed.

(** The calls in the events of the sample run that returns. Those of the
    promises of a [Promise.all] are listed promise by promise. *)
Example sample_run_calls :
  List.map (fun c => match c with
                     | GetElasticsearchService => "getElasticsearchService"
                     | CryptoDecrypt _ _ => "decrypt"
                     | KibanaRequestFrom _ => "KibanaRequest.from"
                     | AsScoped _ _ => "asScoped"
                     | GetSavedObjectsClient _ => "getSavedObjectsClient"
                     | GetUiSettingsServiceFactory _ =>
                         "getUiSettingsServiceFactory"
                     | FieldFormatServiceFactory _ =>
                         "fieldFormatServiceFactory"
                     | FieldFormatMapFactory _ _ => "fieldFormatMapFactory"
                     | ClientGet _ key => key
                     | CreateGenerateCsv _ => "createGenerateCsv"
                     | ConfigGet _ _ => "config.get"
                     | GenerateCsv _ _ => "generateCsv"
                     | _ => "other"
                     end)
    (calls_of (trace (snd (Samples.sample_run 1 42)))) =
  ["getElasticsearchService"; "decrypt"; "KibanaRequest.from"; "asScoped";
   "getSavedObjectsClient"; "getUiSettingsServiceFactory";
   "fieldFormatServiceFactory"; "fieldFormatMapFactory"; "csv:separator";
   "csv:quoteValues"; "dateFormat:tz"; "createGenerateCsv"; "config.get";
   "config.get"; "config.get"; "config.get"; "generateCsv"].
Proof. vm_compute. reflexivity. Qed.

(** The collaborators are called in another order than the events list
    them: the three reads are made before [fieldFormatMapFactory] is
    called. Here each call is answered with the number of calls made
    before it. *)
Example counting_run_order :
  nth 6 (trace (snd (MoreSamples.counting_run 1 42))) (EvAll []) =
  EvAll
    [[EvCall (FieldFormatServiceFactory (JNum 5)) (Ok (JNum 6));
      EvCall (FieldFormatMapFactory (JObj [("title", JStr "logs-*")])
                (JNum 6))
        (Ok (JNum 10))];
     [EvAll [[EvCall (ClientGet (JNum 5) "csv:separator") (Ok (JNum 7))];
             [EvCall (ClientGet (JNum 5) "csv:quoteValues") (Ok (JNum 8))];
             [EvCall (ClientGet (JNum 5) "dateFormat:tz") (Ok (JNum 9))]]]].
Proof. vm_compute. reflexivity. Qed.

(** A read of the ui settings that throws before it returns a promise: the
    third read is not made and the inner [Promise.all] is not reached, while
    getFormatsMap goes on to its end. *)
Example hasty_run_outer_only :
  fst (MoreSamples.hasty_run 1 42) =
    Thrown (Foreign "Error: Saved object client unavailable") /\
  alls (trace (snd (MoreSamples.hasty_run 1 42))) = [(0, 2)]%nat /\
  count_all (trace (snd (MoreSamples.hasty_run 1 42))) = 1%nat /\
  parallel_calls (trace (snd (MoreSamples.hasty_run 1 42))) =
    [FieldFormatServiceFactory (JRef 7);
     FieldFormatMapFactory (JObj [("title", JStr "logs-*")]) (JRef 8);
     ClientGet (JRef 7) "csv:separator";
     ClientGet (JRef 7) "csv:quoteValues"].
Proof. vm_compute. repeat split. Qed.



(** C2 on the sample job whose headers decrypt. *)
Lemma executeJob_success_witness :
  fst (Samples.sample_run 1 42) = Ok Samples.sample_result /\
  exists a,
    content Samples.sample_result =
      (if truthy (a_useByteOrderMarkEncoding a) then "#" else "")
      +:+ gen_content (a_csv a) /\
    size Samples.sample_result = gen_size (a_csv a).
Proof.
  split; [vm_compute; reflexivity|].
  destruct (executeJob_success Samples.sample_respond Samples.sample_touch
              Samples.sample_at_once Samples.sample_earliest
              Samples.sample_translate "#" Samples.sample_closure "job-1"
              1%nat 42%nat Samples.sample_start _ _ sample_run_returns)
    as (p & encrypted & a & _ & _ & _ & _ & _ & _ & _ & _
        & Hcontent & _ & Hsize & _).
  exists a. split; assumption.
Defined.

(** C3 on the sample collaborators, which leave alone what they are
    handed. *)
Lemma executeJob_payload_witness :
  hands_off Samples.sample_touch /\
  jobs (snd (Samples.sample_run 1 42)) = jobs Samples.sample_start.
Proof.
  split; [exact sample_hands_off|].
  destruct (executeJob_payload Samples.sample_respond Samples.sample_touch
              Samples.sample_at_once Samples.sample_earliest
              Samples.sample_translate "#" Samples.sample_closure "job-1"
              1%nat 42%nat Samples.sample_start)
    as (events & fm & gen & _ & _ & _ & _ & _ & _ & Hsame).
  exact (Hsame sample_hands_off).
Defined.

(** C3 as it was stated fails with a [generateCsv] that writes into the
    objects it is given: after the run, which returns, the searchRequest of
    the payload is not what it was. *)
Lemma meddling_run_changes_payload :
  fst (MoreSamples.meddling_run 1 42) = Ok Samples.sample_result /\
  searchRequest <$> jobs Samples.sample_start !! 1%nat =
    Some (JObj [("index", JStr "logs-*")]) /\
  searchRequest <$> jobs (snd (MoreSamples.meddling_run 1 42)) !! 1%nat =
    Some (JObj [("index", JStr "logs-*"); ("scroll", JStr "30s")]) /\
  jobs (snd (MoreSamples.meddling_run 1 42)) !! 1%nat <>
    jobs Samples.sample_start !! 1%nat.
Proof.
  split; [vm_compute; reflexivity|].
  split; [vm_compute; reflexivity|].
  split; [vm_compute; reflexivity|].
  vm_compute. discriminate.
Qed.

(** C5 on the same run. *)
Lemma executeJob_content_type_witness :
  fst (Samples.sample_run 1 42) = Ok Samples.sample_result /\
  content_type Samples.sample_result = "text/csv".
Proof.
  split; [vm_compute; reflexivity|].
  exact (executeJob_content_type Samples.sample_respond Samples.sample_touch
           Samples.sample_at_once Samples.sample_earliest
           Samples.sample_translate "#" Samples.sample_closure "job-1"
           1%nat 42%nat Samples.sample_start _ _ sample_run_returns).
Defined.

(** C6 on the sample run that returns: [generateCsv] is called once, with
    the token 42; the sample collaborators do not look at the token, and
    the run with the token 7 ends the same way; and among collaborators
    that answer every call, the run returns. *)
Lemma executeJob_cancellationToken_witness :
  (fst (Samples.sample_run 1 42) = Ok Samples.sample_result /\
   exists events g args,
     trace (snd (Samples.sample_run 1 42)) = events /\
     List.filter (@is_generateCsv nat) (calls_of events) =
       [GenerateCsv g args] /\
     arg_cancellationToken args = 42%nat) /\
  (token_blind Samples.sample_respond /\
   fst (Samples.sample_run 1 42) = fst (Samples.sample_run 1 7)) /\
  (all_answer MoreSamples.willing_respond /\
   exists r, fst (MoreSamples.willing_run 2 42) = Ok r).
Proof.
  split; [|split].
  - split; [vm_compute; reflexivity|].
    destruct (executeJob_cancellationToken Samples.sample_respond
                Samples.sample_touch Samples.sample_at_once
                Samples.sample_earliest Samples.sample_translate "#"
                Samples.sample_closure "job-1" 1%nat 42%nat
                Samples.sample_start)
      as [(events & Htr & _ & Hret & _) _].
    destruct (Hret Samples.sample_result ltac:(vm_compute; reflexivity))
      as (g & args & Hcalls & Htok & _).
    exists events, g, args. split; [exact Htr|]. split; assumption.
  - split; [exact sample_token_blind|].
    destruct (executeJob_cancellationToken Samples.sample_respond
                Samples.sample_touch Samples.sample_at_once
                Samples.sample_earliest Samples.sample_translate "#"
                Samples.sample_closure "job-1" 1%nat 42%nat
                Samples.sample_start) as [_ Hunread].
    destruct (Hunread sample_token_blind 7%nat)
      as (events & _ & _ & Hres & _).
    exact Hres.
  - split; [exact willing_all_answer|].
    destruct (executeJob_cancellationToken MoreSamples.willing_respond
                Samples.sample_touch Samples.sample_at_once
                Samples.sample_earliest Samples.sample_translate "#"
                Samples.sample_closure "job-1" 2%nat 42%nat
                Samples.sample_start)
      as [(events & _ & _ & _ & Hreturns) _].
    exact (Hreturns willing_all_answer (Samples.sample_job (JStr "garbled"))
             "garbled" ltac:(vm_compute; reflexivity) eq_refl).
Defined.

(** C6 as it was stated fails on the sample job without headers: the run
    throws before [generateCsv], so there is no call of [generateCsv] for
    the token to be passed to. *)
Lemma sample_run_without_generateCsv :
  (exists e, fst (Samples.sample_run 3 42) = Thrown e) /\
  List.filter (@is_generateCsv nat)
    (calls_of (trace (snd (Samples.sample_run 3 42)))) = [] /\
  tokens_in (trace (snd (Samples.sample_run 3 42))) = [].
Proof.
  split; [eexists; vm_compute; reflexivity|].
  split; vm_compute; reflexivity.
Qed.

(** C7 with a single parallel await fails on the sample run: its events
    hold two [Promise.all], not one. *)
Lemma sample_run_two_parallel_awaits :
  fst (Samples.sample_run 1 42) = Ok Samples.sample_result /\
  count_all (trace (snd (Samples.sample_run 1 42))) = 2%nat /\
  count_all (trace (snd (Samples.sample_run 1 42))) <> 1%nat.
Proof.
  split; [vm_compute; reflexivity|].
  split; [vm_compute; reflexivity|].
  vm_compute. discriminate.
Qed.

End ExecuteJobFacts.

(** * Further facts about the alert-list selectors *)

Module AlertExtras.

Import AlertSelectors.

Section MoreSelectorFacts.

Context {AlertData AlertDetails IndexPattern : Type}.
Variable parse : string -> gmap string QueryValue.
Variable encode : JsVal -> string.
Variable decode : string -> result JsVal.

Abbreviation AlertState :=
  (@AlertListState AlertData AlertDetails IndexPattern).

(** What a variable destructured from [uiQueryParams] holds. *)
Lemma prop_uiQueryParams (state : AlertState) loc k :
  location state = Some loc ->
  k ∈ keys ->
  prop (uiQueryParams parse state) k =
    match parse (slice1 (search loc)) !! k with
    | None => None
    | Some (QStr value) => Some value
    | Some (QArr value) => last value
    end.
Proof.
  intros Hloc Hin. unfold prop.
  rewrite (AlertFacts.uiQueryParams_lookup parse state loc k Hloc).
  rewrite decide_True by assumption. unfold picked.
  destruct (parse (slice1 (search loc)) !! k) as [[v|vs]|]; reflexivity.
Qed.

Lemma in_keys (k : string) :
  In k ["page_size"; "page_index"; "selected_alert"; "query"; "date_range";
        "filters"] ->
  k ∈ keys.
Proof. intros H. apply list_elem_of_In. exact H. Qed.

(** X1: on a state without a location every selector gives its default:
    no query parameter, the empty kuery query, no filters, the default date
    range, no selected alert, not on the alerts page, and an API query whose
    page_size, page_index, query and filters are undefined. *)
Theorem selectors_without_location (state : AlertState) :
  location state = None ->
  uiQueryParams parse state = ∅ /\
  searchBarQuery parse decode state =
    Ok (JObj [("query", JStr ""); ("language", JStr "kuery")]) /\
  searchBarFilters parse decode state = Ok (JArr []) /\
  encodedSearchBarDateRange parse encode state =
    encode (JObj [("from", JStr "now-24h"); ("to", JStr "now")]) /\
  hasSelectedAlert parse state = false /\
  isOnAlertPage state = false /\
  apiQueryParams parse encode state =
    list_to_map
      [("page_size", None); ("page_index", None); ("query", None);
       ("date_range",
        Some (encode (JObj [("from", JStr "now-24h"); ("to", JStr "now")])));
       ("filters", None)].
Proof.
  intros Hloc.
  pose proof (AlertFacts.uiQueryParams_no_location parse state Hloc) as Hui.
  unfold searchBarQuery, searchBarFilters, hasSelectedAlert, apiQueryParams,
    isOnAlertPage, createSelector2.
  unfold encodedSearchBarDateRange, createSelector.
  rewrite Hui, Hloc. repeat split; reflexivity.
Qed.

(** X2: with a location, [searchBarQuery] is the rison decoding of the
    query parameter of the url (of the last one when there are several),
    a thrown decoding error included, and the empty kuery query when the
    url has none. *)
Theorem searchBarQuery_of_url (state : AlertState) (loc : Location) :
  location state = Some loc ->
  searchBarQuery parse decode state =
    match parse (slice1 (search loc)) !! "query" with
    | None => Ok (JObj [("query", JStr ""); ("language", JStr "kuery")])
    | Some (QStr value) => decode value
    | Some (QArr value) =>
        match last value with
        | Some v => decode v
        | None => Ok (JObj [("query", JStr ""); ("language", JStr "kuery")])
        end
    end.
Proof.
  intros Hloc. unfold searchBarQuery, createSelector.
  rewrite (prop_uiQueryParams state loc "query" Hloc)
    by (apply in_keys; simpl; tauto).
  destruct (parse (slice1 (search loc)) !! "query") as [[v|vs]|];
    reflexivity.
Qed.

(** X3: with a location, [searchBarFilters] is the rison decoding of the
    filters parameter of the url (of the last one when there are several),
    a thrown decoding error included, and the empty array when the url has
    none. *)
Theorem searchBarFilters_of_url (state : AlertState) (loc : Location) :
  location state = Some loc ->
  searchBarFilters parse decode state =
    match parse (slice1 (search loc)) !! "filters" with
    | None => Ok (JArr [])
    | Some (QStr value) => decode value
    | Some (QArr value) =>
        match last value with
        | Some v => decode v
        | None => Ok (JArr [])
        end
    end.
Proof.
  intros Hloc. unfold searchBarFilters, createSelector.
  rewrite (prop_uiQueryParams state loc "filters" Hloc)
    by (apply in_keys; simpl; tauto).
  destruct (parse (slice1 (search loc)) !! "filters") as [[v|vs]|];
    reflexivity.
Qed.

(** X4: when rison reads back its own encoding of the default date range,
    [searchBarDateRange] is [{ from: 'now-24h', to: 'now' }] on every state
    whose url has no date_range parameter. *)
Theorem searchBarDateRange_default (state : AlertState) :
  let default := JObj [("from", JStr "now-24h"); ("to", JStr "now")] in
  decode (encode default) = Ok default ->
  (location state = None \/
   exists loc, location state = Some loc /\
               parse (slice1 (search loc)) !! "date_range" = None) ->
  searchBarDateRange parse encode decode state = Ok default.
Proof.
  intros default Hround Hurl.
  unfold searchBarDateRange, encodedSearchBarDateRange, createSelector.
  destruct Hurl as [Hloc | (loc & Hloc & Hnone)].
  - rewrite (AlertFacts.uiQueryParams_no_location parse state Hloc).
    exact Hround.
  - rewrite (prop_uiQueryParams state loc "date_range" Hloc)
      by (apply in_keys; simpl; tauto).
    rewrite Hnone. exact Hround.
Qed.

(** X6: the search bar shows the decoding of what is sent to the API: the
    query, the filters and the date range of the search bar are the rison
    decodings of the query, filters and date_range that [apiQueryParams]
    holds, and the defaults where [apiQueryParams] holds undefined. *)
Theorem search_bar_decodes_api_params (state : AlertState) :
  searchBarQuery parse decode state =
    match prop (apiQueryParams parse encode state) "query" with
    | Some query => decode query
    | None => Ok (JObj [("query", JStr ""); ("language", JStr "kuery")])
    end /\
  searchBarFilters parse decode state =
    match prop (apiQueryParams parse encode state) "filters" with
    | Some filters => decode filters
    | None => Ok (JArr [])
    end /\
  exists dateRange,
    prop (apiQueryParams parse encode state) "date_range" = Some dateRange /\
    searchBarDateRange parse encode decode state = decode dateRange.
Proof.
  split; [reflexivity|]. split; [reflexivity|].
  exists (encodedSearchBarDateRange parse encode state).
  split; reflexivity.
Qed.

(** X7: [hasSelectedAlert] is true exactly when the state has a location
    whose url has a selected_alert parameter with a value, the empty value
    included. *)
Theorem hasSelectedAlert_iff (state : AlertState) :
  hasSelectedAlert parse state = true <->
  exists loc, location state = Some loc /\
    match parse (slice1 (search loc)) !! "selected_alert" with
    | None => False
    | Some (QStr value) => True
    | Some (QArr value) => is_Some (last value)
    end.
Proof.
  unfold hasSelectedAlert, createSelector.
  destruct (location state) as [loc|] eqn:Hloc.
  - rewrite (prop_uiQueryParams state loc "selected_alert" Hloc)
      by (apply in_keys; simpl; tauto).
    split.
    + intros H. exists loc. split; [reflexivity|].
      destruct (parse (slice1 (search loc)) !! "selected_alert")
        as [[v|vs]|]; try exact I; try discriminate.
      destruct (last vs); [eauto|discriminate].
    + intros (loc' & Heq & H). inversion Heq; subst loc'.
      destruct (parse (slice1 (search loc)) !! "selected_alert")
        as [[v|vs]|]; try reflexivity; try contradiction.
      destruct H as [v Hv]. rewrite Hv. reflexivity.
  - rewrite (AlertFacts.uiQueryParams_no_location parse state Hloc).
    split; [discriminate|]. intros (loc' & Heq & _). discriminate.
Qed.

(** X8: the first character of [location.search] is dropped whatever it
    is: two states whose search strings agree from the second character on
    have the same [uiQueryParams]. *)
Theorem uiQueryParams_first_character (s1 s2 : AlertState) l1 l2 c1 c2 rest :
  location s1 = Some l1 ->
  location s2 = Some l2 ->
  search l1 = String c1 rest ->
  search l2 = String c2 rest ->
  uiQueryParams parse s1 = uiQueryParams parse s2.
Proof.
  intros H1 H2 Hs1 Hs2. unfold uiQueryParams, createSelector.
  rewrite H1, H2. unfold uiQueryParams_of. rewrite Hs1, Hs2. reflexivity.
Qed.

(** X9: with a parser that finds no key in the empty string, a location
    whose search string is empty or one character long gives no query
    parameter. *)
Theorem uiQueryParams_empty_search (state : AlertState) (loc : Location) :
  parse "" = ∅ ->
  location state = Some loc ->
  String.length (search loc) <= 1 ->
  uiQueryParams parse state = ∅.
Proof.
  intros Hparse Hloc Hlen. apply map_eq. intros k.
  rewrite (AlertFacts.uiQueryParams_lookup parse state loc k Hloc).
  assert (Hslice : slice1 (search loc) = "").
  { destruct (search loc) as [|c [|c' rest]]; simpl in *;
      [reflexivity|reflexivity|lia]. }
  rewrite Hslice, Hparse, lookup_empty. unfold picked.
  rewrite lookup_empty. destruct (decide (k ∈ keys)); reflexivity.
Qed.

End MoreSelectorFacts.

(** X1 on the sample state without a location. *)
Lemma selectors_without_location_witness :
  location MoreSamples.nowhere = None /\
  hasSelectedAlert Samples.sample_parse MoreSamples.nowhere = false /\
  searchBarFilters Samples.sample_parse Samples.sample_decode
    MoreSamples.nowhere = Ok (JArr []).
Proof.
  split; [reflexivity|].
  destruct (selectors_without_location Samples.sample_parse
              Samples.sample_encode Samples.sample_decode MoreSamples.nowhere
              eq_refl)
    as (_ & _ & Hfilters & _ & Hselected & _).
  split; assumption.
Defined.

(** X2 on a url with two query parameters. *)
Lemma searchBarQuery_of_url_witness :
  searchBarQuery Samples.sample_parse Samples.sample_decode
    (Samples.sample_state "/alerts" "?query=a&page_size=5&query=b" 0) =
  Ok (JStr "b").
Proof.
  rewrite (searchBarQuery_of_url Samples.sample_parse Samples.sample_decode
             (Samples.sample_state "/alerts" "?query=a&page_size=5&query=b" 0)
             {| pathname := "/alerts";
                search := "?query=a&page_size=5&query=b";
                hash := "" |} eq_refl).
  vm_compute. reflexivity.
Defined.

(** X3 on a url whose filters parameter is empty: the decoding error is
    what the selector gives. *)
Lemma searchBarFilters_of_url_witness :
  searchBarFilters Samples.sample_parse Samples.sample_decode
    (Samples.sample_state "/alerts" "?filters=" 0) =
  Thrown (Foreign "Error: rison decoder error: empty expression").
Proof.
  rewrite (searchBarFilters_of_url Samples.sample_parse Samples.sample_decode
             (Samples.sample_state "/alerts" "?filters=" 0)
             {| pathname := "/alerts"; search := "?filters="; hash := "" |}
             eq_refl).
  vm_compute. reflexivity.
Defined.

(** X4 on the sample state without a location. *)
Lemma searchBarDateRange_default_witness :
  MoreSamples.range_decode
    (Samples.sample_encode
       (JObj [("from", JStr "now-24h"); ("to", JStr "now")])) =
    Ok (JObj [("from", JStr "now-24h"); ("to", JStr "now")]) /\
  searchBarDateRange Samples.sample_parse Samples.sample_encode
    MoreSamples.range_decode MoreSamples.nowhere =
    Ok (JObj [("from", JStr "now-24h"); ("to", JStr "now")]).
Proof.
  split; [reflexivity|].
  apply (searchBarDateRange_default Samples.sample_parse
           Samples.sample_encode MoreSamples.range_decode MoreSamples.nowhere
           eq_refl).
  left. reflexivity.
Defined.

(** X8 on two urls that differ in the first character only. *)
Lemma uiQueryParams_first_character_witness :
  uiQueryParams Samples.sample_parse
    (Samples.sample_state "/alerts" "?query=x" 0) =
  uiQueryParams Samples.sample_parse
    (Samples.sample_state "/alerts" "#query=x" 0).
Proof.
  apply (uiQueryParams_first_character Samples.sample_parse
           (Samples.sample_state "/alerts" "?query=x" 0)
           (Samples.sample_state "/alerts" "#query=x" 0)
           {| pathname := "/alerts"; search := "?query=x"; hash := "" |}
           {| pathname := "/alerts"; search := "#query=x"; hash := "" |}
           "?"%char "#"%char "query=x");
    reflexivity.
Defined.

(** X9 on a url that ends in a bare question mark. *)
Lemma uiQueryParams_empty_search_witness :
  Samples.sample_parse "" = ∅ /\
  uiQueryParams Samples.sample_parse (Samples.sample_state "/alerts" "?" 0)
    = ∅.
Proof.
  split; [reflexivity|].
  apply (uiQueryParams_empty_search Samples.sample_parse
           (Samples.sample_state "/alerts" "?" 0)
           {| pathname := "/alerts"; search := "?"; hash := "" |});
    [reflexivity|reflexivity|simpl; lia].
Defined.

End AlertExtras.

(** * Further facts about the job executor *)

Module ExecuteJobExtras.

Import ExecuteJob ExecuteJobTrace.

Section MoreExecutorFacts.

Context {Token World : Type}.
Variable respond : forall c : @Call Token, World -> result (Resp c) * World.
Variable touch : @Call Token -> World -> Field -> JsVal -> JsVal.
Variable at_once : @Call Token -> World -> bool.
Variable earliest : World -> nat.
Variable translate : Message -> string.
Variable CSV_JOB_TYPE : string.
Variable CSV_BOM_CHARS : string.

Abbreviation recorded := (@State Token World).

Ltac unfold_all :=
  unfold executeJobFactory, executeJob, decryptHeaders, getFormatsMap,
    getUiSettings, Promise_all2, Promise_all3, settle2, settle3,
    first_rejection, rejections, async, await, start, unawaited, with_trace,
    to_string, bind, try_catch, call, call_handing, read_job, logger_error,
    logger_warn, emit, ret, throw.

(** Case analysis on what decides the next step of the run in the goal. *)
Ltac next_answer :=
  match goal with
  | |- context [respond ?c ?w] =>
      destruct (respond c w) as [[?|?] ?] eqn:?; simpl
  | |- context [at_once ?c ?w] =>
      destruct (at_once c w) eqn:?; simpl
  | |- context [toString ?e] =>
      destruct (toString e) eqn:?; simpl
  | |- context [strict_eq_str ?v ?t] =>
      destruct (strict_eq_str v t) eqn:?; simpl
  | |- context [earliest ?w] =>
      destruct (earliest w) as [|[|[|[|?]]]]; simpl
  end.


(** X11: [executeJob] swallows no error. A run that returns has had no call
    throw; a run that throws ends with an error one of its calls threw, or
    with the decryption error made from the string of an error it has
    logged, or with the TypeError of taking the string of a logged error
    that has no [toString], or with the TypeError of a missing job. *)
Theorem executeJob_swallows_no_error cl jobId job tok (s : recorded) :
  let out :=
    executeJob respond touch at_once earliest translate CSV_BOM_CHARS cl jobId
      job tok s in
  exists events,
    trace (snd out) = (trace s ++ events)%list /\
    (forall r, fst out = Ok r -> thrown_in events = []) /\
    (forall e, fst out = Thrown e ->
       In e (thrown_in events) \/
       (exists err shown,
          In (EvLogError (logger cl) err) events /\
          toString err = Ok shown /\
          e = NewError
                (translate (failedToDecryptReportJobDataErrorMessage shown))) \/
       (exists err,
          In (EvLogError (logger cl) err) events /\
          toString err = Thrown e) \/
       e = Foreign "TypeError: Cannot destructure 'job'").
Proof.
  cbv zeta. unfold_all. simpl.
  next_answer.
  2: { eexists. split; [reflexivity|].
       split; intros x Hx; inversion Hx; subst; simpl; auto. }
  destruct (jobs s !! job) as [p|]; simpl.
  2: { eexists. split; [reflexivity|].
       split; intros x Hx; inversion Hx; subst; simpl; auto. }
  destruct (headers p); simpl.
  all: repeat next_answer.
  all: rewrite <- ?app_assoc; simpl.
  all: eexists; split; [reflexivity|].
  all: split; intros x Hx; inversion Hx; subst; clear Hx; simpl.
  all: try reflexivity.
  all: try (left; solve [auto 8]).
  all: right.
  all: first [ left; eexists _, _; split; [|split; [eassumption|reflexivity]];
               simpl; auto 8
             | right; left; eexists; split; [|eassumption]; simpl; auto 12 ].
Qed.

(** X12: [generateCsv] is the last thing a run does, and it is called only
    when everything before it went through. Either a run has not called
    [generateCsv], and then it has thrown; or its events are those of a run
    that returns, up to the answer of [generateCsv], and it returns the
    result made of that answer or throws what [generateCsv] threw. *)
Theorem executeJob_generateCsv_last cl jobId job tok (s : recorded) :
  let out :=
    executeJob respond touch at_once earliest translate CSV_BOM_CHARS cl jobId
      job tok s in
  exists events,
    trace (snd out) = (trace s ++ events)%list /\
    ((List.filter (@is_generateCsv Token) (calls_of events) = [] /\
      exists e, fst out = Thrown e) \/
     (exists p encrypted a answer,
        jobs s !! job = Some p /\
        headers p = JStr encrypted /\
        events = attempt_events translate cl jobId p encrypted a tok answer /\
        match answer with
        | Ok csv => a_csv a = csv /\ fst out = Ok (result_of CSV_BOM_CHARS a)
        | Thrown e => fst out = Thrown e
        end)).
Proof.
  exact (ExecuteJobFacts.executeJob_run_shape respond touch at_once earliest
           translate CSV_BOM_CHARS cl jobId job tok s).
Qed.

(** X13: with headers that cannot be decrypted, a run calls nothing beyond
    the Elasticsearch service and [crypto.decrypt]: no request is built, no
    client is asked for, and [generateCsv] is not called. *)
Theorem executeJob_stops_after_failed_decrypt cl jobId job tok (s : recorded)
    p :
  jobs s !! job = Some p ->
  cannot_decrypt respond cl (headers p) ->
  let out :=
    executeJob respond touch at_once earliest translate CSV_BOM_CHARS cl jobId
      job tok s in
  exists events,
    trace (snd out) = (trace s ++ events)%list /\
    length (calls_of events) <= 2 /\
    forall c, In c (calls_of events) ->
      c = GetElasticsearchService \/
      exists encrypted,
        headers p = JStr encrypted /\ c = CryptoDecrypt (crypto cl) encrypted.
Proof.
  intros Hjob Hno. cbv zeta. unfold_all. simpl.
  next_answer.
  2: { eexists. split; [reflexivity|]. simpl. split; [lia|].
       intros c [<-|[]]. auto. }
  rewrite Hjob. simpl.
  destruct (headers p) as [| | | |encrypted| | |] eqn:Hh; simpl in *.
  all: try (next_answer; eexists; rewrite <- ?app_assoc;
            (split; [reflexivity|]); simpl;
            (split; [lia|]); intros c [<-|[]]; auto; fail).
  match goal with
  | |- context [respond (CryptoDecrypt ?k ?e) ?w] =>
      destruct (Hno w) as (err & w' & Hcall); rewrite Hcall
  end.
  simpl. next_answer.
  all: eexists; rewrite <- ?app_assoc; (split; [reflexivity|]); simpl.
  all: (split; [lia|]); intros c [<-|[<-|[]]]; eauto.
Qed.

(** X14: a run writes at most one log entry, and writes it to the logger of
    the factory (the one without the job id); the logger with the job id
    is only handed to [createGenerateCsv]. *)
Theorem executeJob_logging cl jobId job tok (s : recorded) :
  let out :=
    executeJob respond touch at_once earliest translate CSV_BOM_CHARS cl jobId
      job tok s in
  exists events,
    trace (snd out) = (trace s ++ events)%list /\
    length (loggers_in events) <= 1 /\
    Forall (fun l => l = logger cl) (loggers_in events) /\
    Forall (fun l => l = Clone (logger cl) [jobId])
      (concat (List.map job_loggers_of (calls_of events))).
Proof.
  cbv zeta. unfold_all. simpl.
  next_answer.
  2: { eexists. split; [reflexivity|]. simpl.
       repeat split; try lia; repeat constructor. }
  destruct (jobs s !! job) as [p|]; simpl.
  2: { eexists. split; [reflexivity|]. simpl.
       repeat split; try lia; repeat constructor. }
  destruct (headers p); simpl.
  all: repeat next_answer.
  all: rewrite <- ?app_assoc; simpl.
  all: eexists; split; [reflexivity|]; simpl.
  all: repeat split; try lia; repeat constructor.
Qed.

(** X15: a run builds the synthetic request at most once, and only from
    headers that [crypto.decrypt] returned: the request has those headers,
    the base path of the job, or that of the server when the job has none
    (an empty one included), and '/' as its path and urls. *)
Theorem executeJob_fake_request cl jobId job tok (s : recorded) :
  let out :=
    executeJob respond touch at_once earliest translate CSV_BOM_CHARS cl jobId
      job tok s in
  exists events,
    trace (snd out) = (trace s ++ events)%list /\
    (concat (List.map requests_of (calls_of events)) = [] \/
     exists p encrypted decrypted,
       jobs s !! job = Some p /\
       headers p = JStr encrypted /\
       In (EvCall (CryptoDecrypt (crypto cl) encrypted) (Ok decrypted))
         events /\
       concat (List.map requests_of (calls_of events)) =
         [{| fr_headers := decrypted;
             fr_getBasePath :=
               if truthy (basePath p) then basePath p else serverBasePath cl;
             fr_path := "/";
             fr_route_settings := JObj [];
             fr_url_href := "/";
             fr_raw_req_url := "/" |}]).
Proof.
  cbv zeta. unfold_all. simpl.
  next_answer.
  2: { eexists. split; [reflexivity|]. left. reflexivity. }
  destruct (jobs s !! job) as [p|] eqn:Hjob; simpl.
  2: { eexists. split; [reflexivity|]. left. reflexivity. }
  destruct (headers p) as [| | | |encrypted| | |] eqn:Hh; simpl.
  all: repeat next_answer.
  all: rewrite <- ?app_assoc; simpl.
  all: eexists; split; [reflexivity|].
  all: try (left; reflexivity).
  all: right; exists p, encrypted; eexists.
  all: split; [solve [reflexivity | assumption]|].
  all: split; [solve [reflexivity | assumption]|].
  all: split; [simpl; right; left; reflexivity|reflexivity].
Qed.

(** X16: [executeJobFactory] reads the configuration, the encryption key
    and the base path of the server and makes the crypto service from the
    key, each once and in this order, and touches no job. When it returns,
    it returns [executeJob] closed over what it read, with the parent
    logger tagged by the job type and 'execute-job'; when it throws, the
    call that threw was its last, and it throws what that call threw. *)
Theorem executeJobFactory_outcome parentLogger (s : recorded) :
  let out :=
    executeJobFactory respond touch at_once earliest translate CSV_JOB_TYPE
      CSV_BOM_CHARS parentLogger s in
  exists events,
    trace (snd out) = (trace s ++ events)%list /\
    jobs (snd out) = jobs s /\
    (forall f, fst out = Ok f ->
       exists config' encryptionKey crypto' serverBasePath',
         events =
           [EvCall GetConfig (Ok config');
            EvCall (ConfigGet config' ["encryptionKey"]) (Ok encryptionKey);
            EvCall (CryptoFactory encryptionKey) (Ok crypto');
            EvCall (KbnConfigGet config' ["server"; "basePath"])
              (Ok serverBasePath')] /\
         f = executeJob respond touch at_once earliest translate CSV_BOM_CHARS
               {| config := config';
                  crypto := crypto';
                  logger := Clone parentLogger [CSV_JOB_TYPE; "execute-job"];
                  serverBasePath := serverBasePath' |}) /\
    (forall e, fst out = Thrown e ->
       thrown_in events = [e] /\
       exists before c,
         events = (before ++ [EvCall c (Thrown e)])%list /\
         thrown_in before = []).
Proof.
  cbv zeta. unfold executeJobFactory, bind, call, ret. simpl.
  repeat next_answer.
  all: rewrite <- ?app_assoc; simpl.
  all: eexists; split; [reflexivity|]; split; [reflexivity|].
  all: split; intros x Hx; inversion Hx; subst; clear Hx.
  all: try (do 4 eexists; split; reflexivity).
  all: split; [reflexivity|].
  all: match goal with
       | H : respond ?c _ = (Thrown _, _) |- _ =>
           first [ eexists [], c; simpl; split; reflexivity
                 | eexists [_], c; simpl; split; reflexivity
                 | eexists [_; _], c; simpl; split; reflexivity
                 | eexists [_; _; _], c; simpl; split; reflexivity ]
       end.
Qed.

End MoreExecutorFacts.

(** X13 on the sample job whose headers do not decrypt. *)
Lemma executeJob_stops_after_failed_decrypt_witness :
  jobs Samples.sample_start !! 2%nat =
    Some (Samples.sample_job (JStr "garbled")) /\
  exists events,
    trace (snd (Samples.sample_run 2 42)) = events /\
    length (calls_of events) <= 2.
Proof.
  assert (Hjob : jobs Samples.sample_start !! 2%nat =
                 Some (Samples.sample_job (JStr "garbled")))
    by (vm_compute; reflexivity).
  split; [exact Hjob|].
  destruct (executeJob_stops_after_failed_decrypt Samples.sample_respond
              Samples.sample_touch Samples.sample_at_once
              Samples.sample_earliest Samples.sample_translate "#"
              Samples.sample_closure "job-1" 2%nat 42%nat Samples.sample_start
              _ Hjob
              (ExecuteJobFacts.sample_cannot_decrypt (JStr "garbled")
                 ltac:(discriminate)))
    as (events & Htr & Hlen & _).
  exists events. split; [exact Htr|exact Hlen].
Defined.

End ExecuteJobExtras.

(** * Facts about the provider of the machine learning services *)

Module MachineLearningFacts.

Import MachineLearning.

Section ProviderFacts.

Context {World : Type}.
Variable construct : Construction -> World -> result JsVal * World.

(** Case analysis on the answer of the next provider in hypothesis [H]. *)
Ltac next_made H :=
  match type of H with
  | context [construct ?c ?w] =>
      destruct (construct c w) as [[?|?] ?] eqn:?; simpl in H;
      try discriminate
  end.

(** X17: when [MachineLearningProvider] returns, it has called the sixteen
    providers once each, the common one first and the others in the order of
    their names, every one with the context it was given; job management
    was given the API service that is returned, the advanced and the common
    job wizard the common service; and the object returned holds what the
    fifteen others made, each under its name, and not the common service. *)
Theorem MachineLearningProvider_returns (context : JsVal) (w w' : World)
    (before after : list (Construction * result JsVal)) (services : JsVal) :
  MachineLearningProvider construct context (w, before) =
    (Ok services, (w', after)) ->
  exists calls,
    after = (before ++ calls)%list /\
    List.map (fun cr => provider (fst cr)) calls = construction_order /\
    Forall (fun cr =>
              given_context (fst cr) = context /\
              given_service (fst cr) = service_for calls (provider (fst cr)) /\
              exists made, snd cr = Ok made) calls /\
    props_of services = omap (export calls) construction_order.
Proof.
  intros H.
  unfold MachineLearningProvider, build_bind, provide, build_ret in H.
  simpl in H. repeat next_made H.
  inversion H; subst; clear H.
  rewrite <- !app_assoc. simpl. eexists. split; [reflexivity|].
  split; [reflexivity|]. split; [|reflexivity].
  repeat constructor; simpl; eauto.
Qed.

(** X18: when [MachineLearningProvider] throws, it throws what a provider
    threw; the providers called before that one all returned, and none was
    called after it: the calls are the first ones of the order of
    construction, up to the one that threw. *)
Theorem MachineLearningProvider_throws (context : JsVal) (w w' : World)
    (before after : list (Construction * result JsVal)) (e : Exn) :
  MachineLearningProvider construct context (w, before) =
    (Thrown e, (w', after)) ->
  exists calls c,
    after = (before ++ calls ++ [(c, Thrown e)])%list /\
    Forall (fun cr => exists made, snd cr = Ok made) calls /\
    List.map (fun cr => provider (fst cr)) (calls ++ [(c, Thrown e)]) =
      take (S (length calls)) construction_order.
Proof.
  intros H.
  unfold MachineLearningProvider, build_bind, provide, build_ret in H.
  simpl in H.
  repeat match type of H with
         | context [construct ?c ?w] =>
             destruct (construct c w) as [[?|?] ?] eqn:?; simpl in H
         end.
  all: inversion H; subst; clear H.
  all: rewrite <- ?app_assoc.
  all: match goal with
       | Hc : construct ?c _ = (Thrown _, _) |- _ =>
           match goal with
           | |- context G [@eq (list (Construction * result JsVal)) ?lhs _] =>
               match lhs with
               | (_ ++ ?l)%list => exists (removelast l), c
               end
           end
       end.
  all: simpl; split; [reflexivity|]; split; [|reflexivity].
  all: repeat constructor; simpl; eauto.
Qed.

End ProviderFacts.

(** X17 on providers that number what they make. *)
Lemma MachineLearningProvider_returns_witness :
  exists services calls,
    fst (MachineLearningProvider (MoreSamples.numbering None) (JStr "ftr")
           (0%nat, [])) = Ok services /\
    List.map (fun cr => provider (fst cr)) calls = construction_order /\
    props_of services = omap (export calls) construction_order.
Proof.
  destruct (MachineLearningProvider (MoreSamples.numbering None) (JStr "ftr")
              (0%nat, [])) as [[services|e] [w' after]] eqn:Hrun;
    [|vm_compute in Hrun; discriminate].
  destruct (MachineLearningProvider_returns (MoreSamples.numbering None)
              (JStr "ftr") 0%nat w' [] after services Hrun)
    as (calls & _ & Horder & _ & Hprops).
  exists services, calls. repeat split; assumption.
Defined.

(** X18 on providers among which job management throws. *)
Lemma MachineLearningProvider_throws_witness :
  exists e (calls : list (Construction * result JsVal)) c,
    fst (MachineLearningProvider
           (MoreSamples.numbering (Some MachineLearningJobManagementProvider))
           (JStr "ftr") (0%nat, [])) = Thrown e /\
    List.map (fun cr => provider (fst cr)) (calls ++ [(c, Thrown e)]) =
      take (S (length calls)) construction_order.
Proof.
  destruct (MachineLearningProvider
              (MoreSamples.numbering
                 (Some MachineLearningJobManagementProvider))
              (JStr "ftr") (0%nat, [])) as [[services|e] [w' after]] eqn:Hrun;
    [vm_compute in Hrun; discriminate|].
  destruct (MachineLearningProvider_throws
              (MoreSamples.numbering
                 (Some MachineLearningJobManagementProvider))
              (JStr "ftr") 0%nat w' [] after e Hrun)
    as (calls & c & _ & _ & Horder).
  exists e, calls, c. split; [reflexivity|exact Horder].
Defined.

End MachineLearningFacts.
